(** * Barberia: appointment scheduling and conflict detection

    A shallow embedding of the scheduling core of [backend/server.py]:
    [update_service], [create_appointment], [update_appointment_status] and
    [get_barber_availability], over an explicit model of the document store
    they talk to, followed by the properties of the specification that
    concern them.

    Conventions.
    - Instants ([datetime]) are integers: milliseconds since the epoch, the
      resolution at which the store keeps dates.  Calendar dates are day
      numbers since 1970-01-01.
    - The arithmetic is that of the integers.  The limits of the libraries
      underneath (the years 1..9999 of Python's [datetime], the 8-byte
      integers of the store) are not part of the handlers' model; a
      property that says a call succeeds where its Python counterpart can
      hit such a limit carries the limit as a hypothesis
      ([within_datetime_range], [int64]).
    - A collection is the list of its documents in insertion order;
      [find_one] returns the first match.
    - Appointment documents are schemaless dictionaries ([gmap string value]),
      as the handlers build them from Python dicts and query them by key.
      Service and staff documents follow the pydantic classes [ServiceCreate]
      and [BarberCreate], the only shapes the handlers ever write.
    - A handler is a computation in a state-and-exception monad over the
      database; [try_except] is the [try: ... except Exception] wrapper that
      every handler ends with. *)

From stdpp Require Import gmap strings list fin_maps sorting.
From Stdlib Require Import ZArith Ascii String.

#[local] Set Warnings "-register-all".
#[local] Open Scope Z_scope.

(** ** Values stored in documents and carried by JSON bodies *)

(** A Python float is only ever copied by the modelled handlers (the price);
    it is kept as the exact value [mantissa * 2 ^ exponent]. *)
Record pyfloat := Float { mantissa : Z; exponent : Z }.

Definition datetime := Z.
Definition date := Z.

Inductive value :=
| VNull
| VBool (b : bool)
| VInt (z : Z)
| VFloat (f : pyfloat)
| VStr (s : string)
| VDate (t : datetime)
| VObjectId (oid : string)
| VArray (l : list value)
| VObject (d : gmap string value).

(** Python truthiness, as used by [if not status]. *)
Definition truthy (v : value) : bool :=
  match v with
  | VNull => false
  | VBool b => b
  | VInt z => negb (z =? 0)
  | VFloat f => negb (mantissa f =? 0)
  | VStr s => negb (String.eqb s "")
  | VDate _ => true
  | VObjectId _ => true
  | VArray l => match l with [] => false | _ => true end
  | VObject d => negb (bool_decide (d = ∅))
  end.

(** [v == s] for a Python string [s]. *)
Definition eq_str (v : value) (s : string) : bool :=
  match v with
  | VStr s' => String.eqb s' s
  | _ => false
  end.

(** ** Time *)

Definition timedelta (minutes : Z) : Z := minutes * 60000.

Definition ms_per_day : Z := 86400000.

(** [datetime.combine(d, t)] for a time of day [t] given in milliseconds. *)
Definition combine (d : date) (t : Z) : datetime := d * ms_per_day + t.

(** [datetime.min.time()] and [datetime.max.time()] (23:59:59.999 at the
    store's resolution). *)
Definition time_min : Z := 0.
Definition time_max : Z := ms_per_day - 1.

(** [d.strftime("%A").lower()]: 1970-01-01 was a Thursday. *)
Definition weekday (d : date) : Z := (d + 3) mod 7.

Definition day_name (d : date) : string :=
  match weekday d with
  | 0 => "monday"
  | 1 => "tuesday"
  | 2 => "wednesday"
  | 3 => "thursday"
  | 4 => "friday"
  | 5 => "saturday"
  | _ => "sunday"
  end.

(** ** Exceptions and the handler monad *)

Inductive exn :=
| HTTPException (status_code : Z) (detail : detail)
| InvalidId (s : string)
| KeyError (k : string)
| TypeError
| ValueError
| OperationFailure
with detail :=
| Msg (s : string)
| StrOf (e : exn).

Inductive result (A : Type) :=
| Ok (a : A)
| Raise (e : exn).
Arguments Ok {A} a.
Arguments Raise {A} e.

(** ** ObjectId *)

Definition hex_lower (c : ascii) : option ascii :=
  let n := nat_of_ascii c in
  if ((48 <=? n) && (n <=? 57))%nat then Some c
  else if ((97 <=? n) && (n <=? 102))%nat then Some c
  else if ((65 <=? n) && (n <=? 70))%nat then Some (ascii_of_nat (n + 32))
  else None.

Fixpoint hex_string_lower (s : string) : option string :=
  match s with
  | EmptyString => Some EmptyString
  | String c s' =>
      match hex_lower c, hex_string_lower s' with
      | Some c', Some r => Some (String c' r)
      | _, _ => None
      end
  end.

(** [ObjectId(s)]: a 24-digit hexadecimal string, either case; [str] of the
    result is the lowercase form, which is how an id is represented here.
    The library also takes a string of 24 characters in which ASCII
    whitespace stands between pairs of digits, and makes an id of fewer
    than 12 bytes of it, which no stored document has; here such a string
    is refused like any other that is not 24 hexadecimal digits. *)
Definition ObjectId (s : string) : result string :=
  if (String.length s =? 24)%nat then
    match hex_string_lower s with
    | Some oid => Ok oid
    | None => Raise (InvalidId s)
    end
  else Raise (InvalidId s).

(** [PyObjectId.validate]: an ObjectId passes, a string passes when
    [ObjectId.is_valid] accepts it, anything else is a [ValueError].  On
    strings with whitespace it shares the limit of [ObjectId] above. *)
Definition PyObjectId_validate (v : value) : result string :=
  match v with
  | VObjectId oid => Ok oid
  | VStr s =>
      match ObjectId s with
      | Ok oid => Ok oid
      | Raise _ => Raise ValueError
      end
  | _ => Raise ValueError
  end.

(** ** Documents *)

Definition STATUS_PENDING : string := "pending".
Definition STATUS_CONFIRMED : string := "confirmed".
Definition STATUS_COMPLETED : string := "completed".
Definition STATUS_CANCELLED : string := "cancelled".

Definition ROLE_ADMIN : string := "admin".
Definition ROLE_BARBER : string := "barber".
Definition ROLE_CLIENT : string := "client".

Record User := {
  user_id_of : string;      (* str(current_user.id) *)
  role : string
}.

Record Service := {
  service_oid : string;
  service_name : string;
  description : option string;
  duration_minutes : Z;
  price : pyfloat;
  category : option string;
  service_active : bool;
  service_created_at : datetime;
  service_updated_at : option datetime
}.

(** [ServiceCreate]; the two optional fields record whether the request set
    them ([dict(exclude_unset=True)] leaves unset fields out). *)
Record ServiceCreate := {
  sc_name : string;
  sc_description : option (option string);
  sc_duration_minutes : Z;
  sc_price : pyfloat;
  sc_category : option (option string)
}.

Record Barber := {
  barber_oid : string;
  barber_user_id : string;
  schedule : gmap string (gmap string string)
}.

Record AppointmentCreate := {
  client_id : string;
  barber_id : string;
  service_id : string;
  scheduled_at : datetime;
  notes : option string
}.

Record database := {
  services : list Service;
  barbers : list Barber;
  appointments : list (gmap string value)
}.

Definition M (A : Type) : Type := database → result A * database.

Definition ret {A} (a : A) : M A := λ db, (Ok a, db).
Definition raise {A} (e : exn) : M A := λ db, (Raise e, db).
Definition lift {A} (r : result A) : M A := λ db, (r, db).
Definition bind {A B} (m : M A) (k : A → M B) : M B :=
  λ db, match m db with
        | (Ok a, db') => k a db'
        | (Raise e, db') => (Raise e, db')
        end.

(** [try: m except Exception as e: raise HTTPException(400, str(e))].
    [HTTPException] is itself an [Exception], so the 403 and 404 raised
    inside the block leave the handler as 400 as well. *)
Definition try_except {A} (m : M A) : M A :=
  λ db, match m db with
        | (Ok a, db') => (Ok a, db')
        | (Raise e, db') => (Raise (HTTPException 400 (StrOf e)), db')
        end.

Notation "x <- m ;; k" := (bind m (λ x, k))
  (at level 100, m at next level, right associativity).

(** ** The store *)

(** A top-level filter condition on field [k]: the field itself satisfies
    [p], or it is an array one of whose elements does; a missing field
    satisfies none of the conditions used below. *)
Definition field_matches (p : value → bool) (d : gmap string value) (k : string) : bool :=
  match d !! k with
  | Some (VArray l) => p (VArray l) || existsb p l
  | Some v => p v
  | None => false
  end.

Definition is_date_where (p : datetime → bool) (v : value) : bool :=
  match v with
  | VDate t => p t
  | _ => false
  end.

Definition is_objectid (oid : string) (v : value) : bool :=
  match v with
  | VObjectId o => String.eqb o oid
  | _ => false
  end.

(** [{"status": {"$in": [PENDING, CONFIRMED]}}] *)
Definition status_active (d : gmap string value) : bool :=
  field_matches (λ v, eq_str v STATUS_PENDING || eq_str v STATUS_CONFIRMED) d "status".

(** Aggregation expressions, evaluated by the store inside [$expr].
    ["$name"] on a document without that field is missing, which the
    arithmetic operators treat like null: [$multiply] and [$add] return null
    as soon as an operand is null or missing, and fail on an operand that is
    neither numeric (nor, for [$add], a date).  Comparison follows the BSON
    order, in which null and numbers sort before every date.  Operands of
    double type are outside the modelled fragment and reported as
    [OperationFailure]; no handler stores a double under a field that an
    expression reads. *)
Definition field_ref (d : gmap string value) (k : string) : value :=
  default VNull (d !! k).

Definition agg_multiply (a b : value) : result value :=
  match a with
  | VNull => Ok VNull
  | VInt x =>
      match b with
      | VNull => Ok VNull
      | VInt y => Ok (VInt (x * y))
      | _ => Raise OperationFailure
      end
  | _ => Raise OperationFailure
  end.

Definition agg_add (a : value) (b : result value) : result value :=
  match a with
  | VNull => Ok VNull
  | VInt x =>
      match b with
      | Ok VNull => Ok VNull
      | Ok (VInt y) => Ok (VInt (x + y))
      | Ok (VDate t) => Ok (VDate (t + x))
      | _ => Raise OperationFailure
      end
  | VDate t =>
      match b with
      | Ok VNull => Ok VNull
      | Ok (VInt y) => Ok (VDate (t + y))
      | _ => Raise OperationFailure
      end
  | _ => Raise OperationFailure
  end.

Definition agg_gt_date (v : result value) (t : datetime) : result bool :=
  match v with
  | Ok (VDate t') => Ok (t' >? t)
  | Ok _ => Ok false
  | Raise e => Raise e
  end.

(** [find_one] with a filter that may fail on a document. *)
Fixpoint find_one_doc (q : gmap string value → result bool) (l : list (gmap string value))
  : result (option (gmap string value)) :=
  match l with
  | [] => Ok None
  | d :: l' =>
      match q d with
      | Ok true => Ok (Some d)
      | Ok false => find_one_doc q l'
      | Raise e => Raise e
      end
  end.

(** [update_one(filter, {"$set": upd})]: the first match gets the keys of
    [upd]; the result carries [matched_count]. *)
Fixpoint update_one_doc (p : gmap string value → bool) (upd : gmap string value)
    (l : list (gmap string value)) : Z * list (gmap string value) :=
  match l with
  | [] => (0, [])
  | d :: l' =>
      if p d then (1, (upd ∪ d) :: l')
      else let '(n, r) := update_one_doc p upd l' in (n, d :: r)
  end.

Fixpoint update_one_service (oid : string) (f : Service → Service) (l : list Service)
  : Z * list Service :=
  match l with
  | [] => (0, [])
  | s :: l' =>
      if String.eqb (service_oid s) oid then (1, f s :: l')
      else let '(n, r) := update_one_service oid f l' in (n, s :: r)
  end.

Definition services_find_one (oid : string) : M (option Service) :=
  λ db, (Ok (List.find (λ s, String.eqb (service_oid s) oid) (services db)), db).

Definition barbers_find_one (oid : string) : M (option Barber) :=
  λ db, (Ok (List.find (λ b, String.eqb (barber_oid b) oid) (barbers db)), db).

Definition barbers_find_one_by_user (uid : string) : M (option Barber) :=
  λ db, (Ok (List.find (λ b, String.eqb (barber_user_id b) uid) (barbers db)), db).

Definition appointments_find_one (q : gmap string value → result bool)
  : M (option (gmap string value)) :=
  λ db, (find_one_doc q (appointments db), db).

Definition appointments_find (q : gmap string value → bool) : M (list (gmap string value)) :=
  λ db, (Ok (List.filter q (appointments db)), db).

(** [insert_one]: the driver puts the generated [_id] into the document. *)
Definition appointments_insert_one (new_id : string) (d : gmap string value) : M string :=
  λ db, (Ok new_id,
         {| services := services db;
            barbers := barbers db;
            appointments := appointments db ++ [<["_id" := VObjectId new_id]> d] |}).

Definition appointments_update_one (p : gmap string value → bool) (upd : gmap string value)
  : M Z :=
  λ db, let '(n, l) := update_one_doc p upd (appointments db) in
        (Ok n, {| services := services db; barbers := barbers db; appointments := l |}).

Definition services_update_one (oid : string) (f : Service → Service) : M Z :=
  λ db, let '(n, l) := update_one_service oid f (services db) in
        (Ok n, {| services := l; barbers := barbers db; appointments := appointments db |}).

(** ** [update_service] *)

(** [{"$set": update_data}] with
    [update_data = service_data.dict(exclude_unset=True)] and [updated_at]. *)
Definition set_service (utcnow : datetime) (service_data : ServiceCreate) (s : Service) : Service :=
  {| service_oid := service_oid s;
     service_name := sc_name service_data;
     description := default (description s) (sc_description service_data);
     duration_minutes := sc_duration_minutes service_data;
     price := sc_price service_data;
     category := default (category s) (sc_category service_data);
     service_active := service_active s;
     service_created_at := service_created_at s;
     service_updated_at := Some utcnow |}.

Definition update_service (utcnow : datetime) (service_id : string)
    (service_data : ServiceCreate) (current_user : User) : M string :=
  if negb (String.eqb (role current_user) ROLE_ADMIN) then
    raise (HTTPException 403 (Msg "Solo administradores pueden actualizar servicios"))
  else
    try_except (
      oid <- lift (ObjectId service_id) ;;
      matched_count <- services_update_one oid (set_service utcnow service_data) ;;
      if matched_count =? 0 then
        raise (HTTPException 404 (Msg "Servicio no encontrado"))
      else ret "Servicio actualizado exitosamente"%string).

(** ** [create_appointment] *)

(** [appointment_data.dict()] *)
Definition AppointmentCreate_dict (a : AppointmentCreate) : gmap string value :=
  <["client_id" := VStr (client_id a)]>
  (<["barber_id" := VStr (barber_id a)]>
  (<["service_id" := VStr (service_id a)]>
  (<["scheduled_at" := VDate (scheduled_at a)]>
  (<["notes" := from_option VStr VNull (notes a)]> ∅)))).

(** The filter of the conflict lookup:
    [barber_id] equal, [scheduled_at < appointment_end], status pending or
    confirmed, and
    [$expr: $gt [$add [$scheduled_at, $multiply [$duration_minutes, 60000]], scheduled_at]]. *)
Definition conflict_expr (new_start : datetime) (d : gmap string value) : result bool :=
  agg_gt_date
    (agg_add (field_ref d "scheduled_at")
             (agg_multiply (field_ref d "duration_minutes") (VInt 60000)))
    new_start.

Definition conflict_query (appointment_data : AppointmentCreate) (appointment_end : datetime)
    (d : gmap string value) : result bool :=
  if field_matches (λ v, eq_str v (barber_id appointment_data)) d "barber_id"
     && field_matches (is_date_where (λ t, t <? appointment_end)) d "scheduled_at"
     && status_active d
  then conflict_expr (scheduled_at appointment_data) d
  else Ok false.

(** The contents of [appointment_dict] when it is handed to [insert_one]. *)
Definition new_appointment_dict (utcnow : datetime) (appointment_data : AppointmentCreate)
    (service : Service) : gmap string value :=
  <["status" := VStr STATUS_PENDING]>
  (<["created_at" := VDate utcnow]>
  (<["total_price" := VFloat (price service)]>
  (AppointmentCreate_dict appointment_data))).

(** [new_id] is the identifier the driver generates for the inserted
    document, [utcnow] the reading of [datetime.utcnow()].  The
    authenticated user is not consulted by the handler. *)
Definition create_appointment (new_id : string) (utcnow : datetime)
    (appointment_data : AppointmentCreate) : M (gmap string value) :=
  try_except (
    sid <- lift (ObjectId (service_id appointment_data)) ;;
    service <- services_find_one sid ;;
    match service with
    | None => raise (HTTPException 404 (Msg "Servicio no encontrado"))
    | Some service =>
      bid <- lift (ObjectId (barber_id appointment_data)) ;;
      barber <- barbers_find_one bid ;;
      match barber with
      | None => raise (HTTPException 404 (Msg "Barbero no encontrado"))
      | Some _ =>
        let appointment_end :=
          scheduled_at appointment_data + timedelta (duration_minutes service) in
        existing_appointment <-
          appointments_find_one (conflict_query appointment_data appointment_end) ;;
        match existing_appointment with
        | Some _ =>
            raise (HTTPException 400 (Msg "El barbero no está disponible en ese horario"))
        | None =>
            let appointment_dict := new_appointment_dict utcnow appointment_data service in
            inserted_id <- appointments_insert_one new_id appointment_dict ;;
            ret (<["id" := VStr inserted_id]> appointment_dict)
        end
      end
    end).

(** ** [update_appointment_status] *)

Definition valid_statuses : list string :=
  [STATUS_PENDING; STATUS_CONFIRMED; STATUS_COMPLETED; STATUS_CANCELLED].

(** [d[k]] *)
Definition getitem (d : gmap string value) (k : string) : result value :=
  match d !! k with
  | Some v => Ok v
  | None => Raise (KeyError k)
  end.

Definition str_of_value (v : value) : string :=
  match v with
  | VStr s => s
  | _ => ""
  end.

(** The [can_update] cascade.  The appointment is read with [appointment[k]],
    and only on the branch the user's role selects. *)
Definition can_update (current_user : User) (appointment : gmap string value) : M bool :=
  if String.eqb (role current_user) ROLE_ADMIN then ret true
  else
    owner <- (if String.eqb (role current_user) ROLE_CLIENT then
                c <- lift (getitem appointment "client_id") ;;
                ret (eq_str c (user_id_of current_user))
              else ret false) ;;
    if (owner : bool) then ret true
    else if String.eqb (role current_user) ROLE_BARBER then
      barber <- barbers_find_one_by_user (user_id_of current_user) ;;
      match barber with
      | Some barber =>
          b <- lift (getitem appointment "barber_id") ;;
          ret (eq_str b (barber_oid barber))
      | None => ret false
      end
    else ret false.

(** [{"$set": {"status": status, "updated_at": datetime.utcnow()}}] *)
Definition status_update (status : value) (utcnow : datetime) : gmap string value :=
  <["status" := status]> (<["updated_at" := VDate utcnow]> ∅).

Definition has_id (oid : string) (d : gmap string value) : bool :=
  field_matches (is_objectid oid) d "_id".

Definition update_appointment_status (utcnow : datetime) (appointment_id : string)
    (status_data : gmap string value) (current_user : User) : M string :=
  try_except (
    let status := field_ref status_data "status" in
    if negb (truthy status) then
      raise (HTTPException 400 (Msg "Status is required"))
    else if negb (existsb (eq_str status) valid_statuses) then
      raise (HTTPException 400 (Msg "Estado inválido"))
    else
      oid <- lift (ObjectId appointment_id) ;;
      appointment <- appointments_find_one (λ d, Ok (has_id oid d)) ;;
      match appointment with
      | None => raise (HTTPException 404 (Msg "Cita no encontrada"))
      | Some appointment =>
          allowed <- can_update current_user appointment ;;
          if negb allowed then raise (HTTPException 403 (Msg "No autorizado"))
          else
            matched_count <-
              appointments_update_one (has_id oid) (status_update status utcnow) ;;
            if matched_count =? 0 then
              raise (HTTPException 404 (Msg "Cita no encontrada"))
            else ret ("Estado de cita actualizado a " ++ str_of_value status)%string
      end).

(** ** [get_barber_availability] *)

(** A decimal digit of the ASCII range ([strptime] also takes the decimal
    digits of other scripts). *)
Definition digit (c : ascii) : option Z :=
  let n := nat_of_ascii c in
  if ((48 <=? n) && (n <=? 57))%nat then Some (Z.of_nat n - 48) else None.

(** [%M]: the pattern [[0-5]\d|\d], which has to reach the end of the string. *)
Definition parse_minute (l : list ascii) : option Z :=
  match l with
  | [d] => digit d
  | [d1; d2] =>
      match digit d1, digit d2 with
      | Some a, Some b => if a <=? 5 then Some (10 * a + b) else None
      | _, _ => None
      end
  | _ => None
  end.

(** [%H:%M]: the hour pattern is [2[0-3]|[0-1]\d|\d]; the colon that has to
    follow decides between a one-digit and a two-digit hour. *)
Definition parse_hour_minute (l : list ascii) : option (Z * Z) :=
  match l with
  | c1 :: c2 :: rest =>
      if Ascii.eqb c2 ":" then
        match digit c1, parse_minute rest with
        | Some h, Some m => Some (h, m)
        | _, _ => None
        end
      else
        match rest with
        | c3 :: rest' =>
            if Ascii.eqb c3 ":" then
              match digit c1, digit c2, parse_minute rest' with
              | Some a, Some b, Some m =>
                  if ((a =? 2) && (b <=? 3)) || (a <=? 1)
                  then Some (10 * a + b, m) else None
              | _, _, _ => None
              end
            else None
        | [] => None
        end
  | _ => None
  end.

(** [datetime.strptime(s, "%H:%M").time()], as milliseconds into the day. *)
Definition strptime_HM (s : string) : result Z :=
  match parse_hour_minute (list_ascii_of_string s) with
  | Some (h, m) => Ok (timedelta (h * 60 + m))
  | None => Raise ValueError
  end.

Definition getitem_str (d : gmap string string) (k : string) : result string :=
  match d !! k with
  | Some v => Ok v
  | None => Raise (KeyError k)
  end.

(** [ObjectId(v)] for a stored value: the ids the handlers store are
    strings.  ([ObjectId(None)] would make a fresh id; no handler stores a
    null id.) *)
Definition ObjectId_of_value (v : value) : result string :=
  match v with
  | VStr s => ObjectId s
  | VObjectId oid => Ok oid
  | _ => Raise TypeError
  end.

Definition result_bind {A B} (r : result A) (k : A → result B) : result B :=
  match r with
  | Ok a => k a
  | Raise e => Raise e
  end.

(** The filter of the day's appointments. *)
Definition day_query (barber_id : string) (start_of_day end_of_day : datetime)
    (d : gmap string value) : bool :=
  field_matches (λ v, eq_str v barber_id) d "barber_id"
  && field_matches (is_date_where (λ t, start_of_day <=? t)) d "scheduled_at"
  && field_matches (is_date_where (λ t, t <=? end_of_day)) d "scheduled_at"
  && status_active d.

Record busy := { busy_start : datetime; busy_end : datetime }.

(** Body of the [async for]: the service is looked up for its duration,
    60 minutes when it is gone. *)
Definition busy_of (svcs : list Service) (appointment : gmap string value) : result busy :=
  result_bind (getitem appointment "service_id") (λ sv,
  result_bind (ObjectId_of_value sv) (λ sid,
    let service := List.find (λ s, String.eqb (service_oid s) sid) svcs in
    let duration := match service with
                    | Some s => duration_minutes s
                    | None => 60
                    end in
    result_bind (getitem appointment "scheduled_at") (λ st,
      match st with
      | VDate t => Ok {| busy_start := t; busy_end := t + timedelta duration |}
      | _ => Raise TypeError
      end))).

Fixpoint busy_list (svcs : list Service) (l : list (gmap string value)) : result (list busy) :=
  match l with
  | [] => Ok []
  | d :: l' =>
      result_bind (busy_of svcs d) (λ b,
      result_bind (busy_list svcs l') (λ bs, Ok (b :: bs)))
  end.

(** The [for appointment in appointments] scan with its [break]. *)
Definition slot_conflicts (current_slot slot_end : datetime) (a : busy) : bool :=
  (current_slot <? busy_end a) && (slot_end >? busy_start a).

Definition is_available (appointments : list busy) (current_slot slot_end : datetime) : bool :=
  negb (existsb (slot_conflicts current_slot slot_end) appointments).

(** The [while current_slot < end_datetime] loop.  [clock k] is what the
    [k]-th call of [datetime.now()] returns; the call is made only for a
    slot that is free ([and] short-circuits).  [None]: the fuel ran out. *)
Fixpoint slots_loop (fuel : nat) (clock : nat → datetime) (reads : nat)
    (appointments : list busy) (end_datetime current_slot : datetime)
  : option (list datetime) :=
  if current_slot <? end_datetime then
    match fuel with
    | O => None
    | S fuel' =>
        let slot_end := current_slot + timedelta 30 in
        let next := current_slot + timedelta 30 in
        if is_available appointments current_slot slot_end then
          if current_slot >? clock reads then
            option_map (cons current_slot)
              (slots_loop fuel' clock (S reads) appointments end_datetime next)
          else slots_loop fuel' clock (S reads) appointments end_datetime next
        else slots_loop fuel' clock reads appointments end_datetime next
    end
  else Some [].

Definition slots_fuel (end_datetime current_slot : datetime) : nat :=
  Z.to_nat ((end_datetime - current_slot) / timedelta 30 + 1).

(** [target_date] is the date parsed from the request; the slots are
    returned as instants (the handler prints each with [isoformat()]). *)
Definition get_barber_availability (clock : nat → datetime) (barber_id : string)
    (target_date : date) : M (list datetime) :=
  try_except (
    bid <- lift (ObjectId barber_id) ;;
    barber <- barbers_find_one bid ;;
    match barber with
    | None => raise (HTTPException 404 (Msg "Barbero no encontrado"))
    | Some barber =>
        match schedule barber !! day_name target_date with
        | None => ret []
        | Some day_schedule =>
            if bool_decide (day_schedule = ∅) then ret []
            else
              let start_of_day := combine target_date time_min in
              let end_of_day := combine target_date time_max in
              found <- appointments_find (day_query barber_id start_of_day end_of_day) ;;
              appointments <- (λ db, (busy_list (services db) found, db)) ;;
              start_time <- lift (result_bind (getitem_str day_schedule "start") strptime_HM) ;;
              end_time <- lift (result_bind (getitem_str day_schedule "end") strptime_HM) ;;
              let current_slot := combine target_date start_time in
              let end_datetime := combine target_date end_time in
              match slots_loop (slots_fuel end_datetime current_slot) clock 0
                      appointments end_datetime current_slot with
              | Some available_slots => ret available_slots
              | None => ret []
              end
        end
    end).

(** ** [create_service] and [get_services] *)

(** [db.services.insert_one].  The driver refuses a document holding an
    integer that is not [int64], before anything is stored; that limit is
    left to the hypotheses of the properties. *)
Definition services_insert_one (s : Service) : M string :=
  λ db, (Ok (service_oid s),
         {| services := services db ++ [s]; barbers := barbers db;
            appointments := appointments db |}).

(** [service_data.dict()] with [created_at] and [active]; an optional field
    the request leaves out is [None].  [new_id] is the generated [_id]. *)
Definition new_service (new_id : string) (utcnow : datetime) (service_data : ServiceCreate)
  : Service :=
  {| service_oid := new_id;
     service_name := sc_name service_data;
     description := default None (sc_description service_data);
     duration_minutes := sc_duration_minutes service_data;
     price := sc_price service_data;
     category := default None (sc_category service_data);
     service_active := true;
     service_created_at := utcnow;
     service_updated_at := None |}.

(** The handler has no [try] block: its 403 leaves as 403. *)
Definition create_service (new_id : string) (utcnow : datetime)
    (service_data : ServiceCreate) (current_user : User) : M Service :=
  if negb (String.eqb (role current_user) ROLE_ADMIN) then
    raise (HTTPException 403 (Msg "Solo administradores pueden crear servicios"))
  else
    let service_dict := new_service new_id utcnow service_data in
    inserted_id <- services_insert_one service_dict ;;
    ret service_dict.

(** [db.services.find({"active": True})] *)
Definition get_services : M (list Service) :=
  λ db, (Ok (List.filter service_active (services db)), db).

(** ** [update_barber] *)

(** [BarberCreate], as far as the fields of [Barber] go: [user_id] is
    required and therefore always part of the update, [schedule] only when
    the request sets it. *)
Record BarberCreate := {
  bc_user_id : string;
  bc_schedule : option (gmap string (gmap string string))
}.

Definition set_barber (barber_data : BarberCreate) (b : Barber) : Barber :=
  {| barber_oid := barber_oid b;
     barber_user_id := bc_user_id barber_data;
     schedule := default (schedule b) (bc_schedule barber_data) |}.

Fixpoint update_one_barber (oid : string) (f : Barber → Barber) (l : list Barber)
  : Z * list Barber :=
  match l with
  | [] => (0, [])
  | b :: l' =>
      if String.eqb (barber_oid b) oid then (1, f b :: l')
      else let '(n, r) := update_one_barber oid f l' in (n, b :: r)
  end.

Definition barbers_update_one (oid : string) (f : Barber → Barber) : M Z :=
  λ db, let '(n, l) := update_one_barber oid f (barbers db) in
        (Ok n, {| services := services db; barbers := l; appointments := appointments db |}).

(** The check a caller who is no administrator has to pass: the profile
    exists and is the caller's own. *)
Definition update_barber_check (barber_id : string) (current_user : User) : M unit :=
  if negb (String.eqb (role current_user) ROLE_ADMIN) then
    bid <- lift (ObjectId barber_id) ;;
    barber <- barbers_find_one bid ;;
    match barber with
    | None => raise (HTTPException 403 (Msg "No autorizado"))
    | Some barber =>
        if negb (String.eqb (barber_user_id barber) (user_id_of current_user))
        then raise (HTTPException 403 (Msg "No autorizado"))
        else ret tt
    end
  else ret tt.

Definition update_barber (barber_id : string) (barber_data : BarberCreate)
    (current_user : User) : M string :=
  try_except (
    checked <- update_barber_check barber_id current_user ;;
    bid <- lift (ObjectId barber_id) ;;
    matched_count <- barbers_update_one bid (set_barber barber_data) ;;
    if matched_count =? 0 then
      raise (HTTPException 404 (Msg "Barbero no encontrado"))
    else ret "Barbero actualizado exitosamente"%string).

(** ** [get_appointments] *)

(** The users collection is only read here, for names; it is handed to the
    handler next to the database. *)
Record UserDoc := {
  user_oid : string;
  user_name : string
}.

(** The key of [.sort("scheduled_at", 1)].  In the order the store sorts
    by, every value a document can hold here other than a date comes before
    all dates, and an array counts by its smallest element.  [None]: a key
    that precedes every date.  The handlers only ever store a date; among
    documents without one the order of the model is that of the merge, not
    necessarily the store's. *)
Fixpoint min_date (m : datetime) (l : list value) : option datetime :=
  match l with
  | [] => Some m
  | VDate t :: l' => min_date (Z.min m t) l'
  | _ => None
  end.

Definition sort_key (d : gmap string value) : option datetime :=
  match d !! "scheduled_at" with
  | Some (VDate t) => Some t
  | Some (VArray (VDate t :: l)) => min_date t l
  | _ => None
  end.

Definition scheduled_leb (d1 d2 : gmap string value) : bool :=
  match sort_key d1, sort_key d2 with
  | None, _ => true
  | Some _, None => false
  | Some a, Some b => a <=? b
  end.

Definition scheduled_le (d1 d2 : gmap string value) : Prop := scheduled_leb d1 d2 = true.

#[global] Instance scheduled_le_dec : RelDecision scheduled_le :=
  λ d1 d2, decide (scheduled_leb d1 d2 = true).

(** The query built from the role: a client's own appointments, those of
    the staff profile of a barber, and everything otherwise, also for a
    barber without a profile. *)
Definition listing_query (current_user : User) : M (gmap string value → bool) :=
  if String.eqb (role current_user) ROLE_CLIENT then
    ret (λ d, field_matches (λ v, eq_str v (user_id_of current_user)) d "client_id")
  else if String.eqb (role current_user) ROLE_BARBER then
    barber <- barbers_find_one_by_user (user_id_of current_user) ;;
    match barber with
    | Some barber => ret (λ d, field_matches (λ v, eq_str v (barber_oid barber)) d "barber_id")
    | None => ret (λ _, true)
    end
  else ret (λ _, true).

Definition users_find_one (users : list UserDoc) (oid : string) : option UserDoc :=
  List.find (λ u, String.eqb (user_oid u) oid) users.

(** [str(appointment_doc["_id"])]; the ids of stored appointments are
    ObjectIds, other values are not rendered. *)
Definition str_of_id (v : value) : value :=
  match v with
  | VObjectId oid => VStr oid
  | VStr s => VStr s
  | _ => VStr ""
  end.

(** The [appointment_info] dictionary. *)
Definition appointment_info_dict (idv scheduled status total_price notes_value : value)
    (client barber_user : option UserDoc) (service : option Service) : gmap string value :=
  <["id" := str_of_id idv]>
  (<["client_name" := VStr (from_option user_name "Cliente no encontrado" client)]>
  (<["barber_name" := VStr (from_option user_name "Barbero no encontrado" barber_user)]>
  (<["service_name" := VStr (from_option service_name "Servicio no encontrado" service)]>
  (<["scheduled_at" := scheduled]>
  (<["status" := status]>
  (<["total_price" := total_price]>
  (<["notes" := notes_value]>
  (<["duration_minutes" := VInt (from_option duration_minutes 0 service)]> ∅)))))))).

(** [db.users.find_one] for the user of a staff profile, if there is one. *)
Definition barber_user_of (users : list UserDoc) (barber_profile : option Barber)
  : result (option UserDoc) :=
  match barber_profile with
  | Some b => result_bind (ObjectId (barber_user_id b)) (λ uid, Ok (users_find_one users uid))
  | None => Ok None
  end.

(** Body of the [async for]: the lookups, then the dictionary. *)
Definition appointment_info (users : list UserDoc) (db : database)
    (appointment_doc : gmap string value) : result (gmap string value) :=
  result_bind (getitem appointment_doc "client_id") (λ cv,
  result_bind (ObjectId_of_value cv) (λ cid,
  result_bind (getitem appointment_doc "barber_id") (λ bv,
  result_bind (ObjectId_of_value bv) (λ bid,
  result_bind (barber_user_of users
                 (List.find (λ b, String.eqb (barber_oid b) bid) (barbers db))) (λ barber_user,
  result_bind (getitem appointment_doc "service_id") (λ sv,
  result_bind (ObjectId_of_value sv) (λ sid,
  result_bind (getitem appointment_doc "_id") (λ idv,
  result_bind (getitem appointment_doc "scheduled_at") (λ scheduled,
  result_bind (getitem appointment_doc "status") (λ status,
  result_bind (getitem appointment_doc "total_price") (λ total_price,
    Ok (appointment_info_dict idv scheduled status total_price
          (field_ref appointment_doc "notes")
          (users_find_one users cid) barber_user
          (List.find (λ s, String.eqb (service_oid s) sid) (services db)))))))))))))).

Fixpoint appointment_infos (users : list UserDoc) (db : database)
    (l : list (gmap string value)) : result (list (gmap string value)) :=
  match l with
  | [] => Ok []
  | d :: l' =>
      result_bind (appointment_info users db d) (λ info,
      result_bind (appointment_infos users db l') (λ infos, Ok (info :: infos)))
  end.

Definition get_appointments (users : list UserDoc) (current_user : User)
  : M (list (gmap string value)) :=
  try_except (
    query <- listing_query current_user ;;
    found <- appointments_find query ;;
    appointments <- (λ db, (appointment_infos users db (merge_sort scheduled_le found), db)) ;;
    ret appointments).

(** ** Notions of the specification *)

(** The occupied interval of an appointment is derived, not stored: the
    handlers derive it in [busy_of], from the appointment's start and the
    duration of the service it refers to. *)
Definition occupied (db : database) (appointment : gmap string value) : result busy :=
  busy_of (services db) appointment.

(** Half-open intervals [[a, b)] and [[c, d)] overlap. *)
Definition overlap (a b c d : Z) : Prop := a < d ∧ c < b.

Definition busy_overlap (x y : busy) : Prop :=
  overlap (busy_start x) (busy_end x) (busy_start y) (busy_end y).

(** Non-overlap: two distinct pending or confirmed appointments of one staff
    member never occupy overlapping intervals. *)
Definition non_overlap (db : database) : Prop :=
  ∀ (i j : nat) (a b : gmap string value) (x y : busy),
    i ≠ j →
    appointments db !! i = Some a →
    appointments db !! j = Some b →
    a !! "barber_id" = b !! "barber_id" →
    status_active a = true →
    status_active b = true →
    occupied db a = Ok x →
    occupied db b = Ok y →
    ¬ busy_overlap x y.

(** The core operations, with what each call receives from outside. *)
Inductive operation :=
| CreateAppointment (new_id : string) (utcnow : datetime) (appointment_data : AppointmentCreate)
| TransitionStatus (utcnow : datetime) (appointment_id : string)
    (status_data : gmap string value) (actor : User).

Definition step (db : database) (op : operation) : database :=
  match op with
  | CreateAppointment new_id utcnow appointment_data =>
      snd (create_appointment new_id utcnow appointment_data db)
  | TransitionStatus utcnow appointment_id status_data actor =>
      snd (update_appointment_status utcnow appointment_id status_data actor db)
  end.

Definition run (ops : list operation) (db : database) : database :=
  fold_left step ops db.

Definition is_valid_status (v : value) : Prop :=
  v = VStr STATUS_PENDING ∨ v = VStr STATUS_CONFIRMED ∨
  v = VStr STATUS_COMPLETED ∨ v = VStr STATUS_CANCELLED.

(** The two rejections of the status validation, as they leave the handler. *)
Definition invalid_status_error (r : result string) : Prop :=
  r = Raise (HTTPException 400 (StrOf (HTTPException 400 (Msg "Status is required")))) ∨
  r = Raise (HTTPException 400 (StrOf (HTTPException 400 (Msg "Estado inválido")))).

(** Admin, owning client, or assigned staff member. *)
Definition authorized (db : database) (actor : User) (appointment : gmap string value) : Prop :=
  role actor = ROLE_ADMIN
  ∨ (role actor = ROLE_CLIENT ∧
     appointment !! "client_id" = Some (VStr (user_id_of actor)))
  ∨ (role actor = ROLE_BARBER ∧
     ∃ b, List.find (λ b, String.eqb (barber_user_id b) (user_id_of actor)) (barbers db) = Some b ∧
          appointment !! "barber_id" = Some (VStr (barber_oid b))).

(** The occupied intervals that [get_barber_availability] checks its
    candidates against. *)
Definition day_busy (db : database) (barber_id : string) (target_date : date)
  : result (list busy) :=
  busy_list (services db)
    (List.filter (day_query barber_id (combine target_date time_min)
                    (combine target_date time_max))
       (appointments db)).

(** The shape of an appointment as the handlers leave it: a date under
    [scheduled_at], and no [duration_minutes] key. *)
Definition as_booked (d : gmap string value) : Prop :=
  d !! "duration_minutes" = None ∧ ∃ t, d !! "scheduled_at" = Some (VDate t).

(** ** Limits of the libraries *)

(** Python's [datetime] runs from 0001-01-01 00:00 to 9999-12-31
    23:59:59.999999; [datetime + timedelta] raises [OverflowError] when the
    sum leaves that range, and so does the driver when it turns an aware
    datetime into its UTC instant. *)
Definition datetime_min : datetime := combine (-719162) time_min.
Definition datetime_max : datetime := combine 2932896 time_max.

(** An instant a day inside both limits: in range as UTC instant and as the
    local time of any time zone. *)
Definition within_datetime_range (t : datetime) : Prop :=
  datetime_min + ms_per_day ≤ t ≤ datetime_max - ms_per_day.

(** An integer the store can hold: [insert_one] raises [OverflowError] on a
    larger one. *)
Definition int64 (z : Z) : Prop := - 2 ^ 63 ≤ z < 2 ^ 63.

(** ** A shop to run the handlers on *)

Definition hm (h m : Z) : Z := timedelta (h * 60 + m).

(** Midnight-based instants of three consecutive days in January 2030. *)
Definition monday : date := 21921.
Definition tuesday : date := 21922.
Definition wednesday : date := 21923.

Definition corte : Service :=
  {| service_oid := "65f000000000000000000a01"; service_name := "Corte de Cabello";
     description := Some "Corte tradicional masculino"%string;
     duration_minutes := 30; price := Float 25 0; category := Some "corte"%string;
     service_active := true; service_created_at := 0; service_updated_at := None |}.

Definition corte_barba : Service :=
  {| service_oid := "65f000000000000000000a02"; service_name := "Corte + Barba";
     description := Some "Corte de cabello con arreglo de barba"%string;
     duration_minutes := 45; price := Float 35 0; category := Some "completo"%string;
     service_active := true; service_created_at := 0; service_updated_at := None |}.

Definition premium : Service :=
  {| service_oid := "65f000000000000000000a04"; service_name := "Paquete Premium";
     description := Some "Corte + Barba + Tratamiento"%string;
     duration_minutes := 60; price := Float 50 0; category := Some "premium"%string;
     service_active := true; service_created_at := 0; service_updated_at := None |}.

Definition the_barber : Barber :=
  {| barber_oid := "65f000000000000000000b01";
     barber_user_id := "65f000000000000000000c01";
     schedule :=
       {[ "monday" := {[ "start" := "09:00"; "end" := "17:00" ]};
          "tuesday" := {[ "start" := "09:00"; "end" := "17:15" ]};
          "wednesday" := {[ "start" := "00:00"; "end" := "02:00" ]} ]} |}.

Definition shop : database :=
  {| services := [corte; corte_barba; premium]; barbers := [the_barber]; appointments := [] |}.

Definition admin : User := {| user_id_of := "65f000000000000000000c00"; role := ROLE_ADMIN |}.

Definition booking (client service : string) (d : date) (h m : Z) : AppointmentCreate :=
  {| client_id := client; barber_id := "65f000000000000000000b01"; service_id := service;
     scheduled_at := combine d (hm h m); notes := None |}.

Definition ana : string := "65f000000000000000000c11".
Definition luis : string := "65f000000000000000000c12".

Definition id1 : string := "65f000000000000000000d01".
Definition id2 : string := "65f000000000000000000d02".

Definition set_status (s : string) : gmap string value := {[ "status" := VStr s ]}.

(** Ana books Monday 10:00; the booking is cancelled; Luis books the same
    slot; an administrator sets Ana's appointment back to confirmed. *)
Definition reactivation : list operation :=
  [ CreateAppointment id1 1000 (booking ana "65f000000000000000000a02" monday 10 0);
    TransitionStatus 2000 id1 (set_status STATUS_CANCELLED) admin;
    CreateAppointment id2 3000 (booking luis "65f000000000000000000a02" monday 10 0);
    TransitionStatus 4000 id1 (set_status STATUS_CONFIRMED) admin ].

(** Scenario B: one confirmed 45-minute appointment on Monday 10:00. *)
Definition scenario_B : database :=
  run [ CreateAppointment id1 1000 (booking ana "65f000000000000000000a02" monday 10 0);
        TransitionStatus 2000 id1 (set_status STATUS_CONFIRMED) admin ] shop.

(** One pending 60-minute appointment on Tuesday 23:30. *)
Definition late_booking : database :=
  run [ CreateAppointment id1 1000 (booking ana "65f000000000000000000a04" tuesday 23 30) ] shop.

(** One pending 45-minute appointment on Monday 10:00. *)
Definition one_booking : database :=
  run [ CreateAppointment id1 1000 (booking ana "65f000000000000000000a02" monday 10 0) ] shop.

Definition ten_to_quarter_to_eleven : busy :=
  {| busy_start := combine monday (hm 10 0); busy_end := combine monday (hm 10 45) |}.

(** The error with which [create_appointment] reports a conflict. *)
Definition scheduling_conflict : exn :=
  HTTPException 400
    (StrOf (HTTPException 400 (Msg "El barbero no está disponible en ese horario"))).

(** A price change for the 45-minute service. *)
Definition new_price : ServiceCreate :=
  {| sc_name := "Corte + Barba"; sc_description := None; sc_duration_minutes := 45;
     sc_price := Float 40 0; sc_category := None |}.

Definition the_barber_id : string := "65f000000000000000000b01".

(** Monday's slots with nothing booked (scenario A): 09:00 to 16:30. *)
Definition scenario_A_slots : list datetime :=
  map (λ m, combine monday (timedelta m))
    [540; 570; 600; 630; 660; 690; 720; 750; 780; 810; 840; 870; 900; 930; 960; 990].

(** Monday's slots in scenario B: 09:00, 09:30, then 11:00 to 16:30. *)
Definition scenario_B_slots : list datetime :=
  map (λ m, combine monday (timedelta m))
    [540; 570; 660; 690; 720; 750; 780; 810; 840; 870; 900; 930; 960; 990].

(** Tuesday's slots with nothing booked: 09:00 to 17:00. *)
Definition tuesday_slots : list datetime :=
  map (λ m, combine tuesday (timedelta m))
    [540; 570; 600; 630; 660; 690; 720; 750; 780; 810; 840; 870; 900; 930; 960; 990; 1020].

(** The record of Ana's booking as [create_appointment] stores it. *)
Definition ana_record : gmap string value :=
  <["_id" := VObjectId id1]>
    (new_appointment_dict 1000 (booking ana "65f000000000000000000a02" monday 10 0)
       corte_barba).


(** A service an administrator adds, and the users behind the names. *)
Definition afeitado : ServiceCreate :=
  {| sc_name := "Solo Barba"; sc_description := None; sc_duration_minutes := 20;
     sc_price := Float 15 0; sc_category := Some (Some "barba"%string) |}.

Definition id3 : string := "65f000000000000000000a03".

Definition beto : User := {| user_id_of := "65f000000000000000000c01"; role := ROLE_BARBER |}.

Definition the_users : list UserDoc :=
  [ {| user_oid := ana; user_name := "Ana" |};
    {| user_oid := luis; user_name := "Luis" |};
    {| user_oid := "65f000000000000000000c01"; user_name := "Beto" |} ].

(** Ana booked Monday 12:00, then Luis Monday 10:00. *)
Definition two_bookings : database :=
  run [ CreateAppointment id1 1000 (booking ana "65f000000000000000000a02" monday 12 0);
        CreateAppointment id2 2000 (booking luis "65f000000000000000000a01" monday 10 0) ]
    shop.

(** Wednesday's two hours taken by two pending 60-minute appointments. *)
Definition fully_booked : database :=
  run [ CreateAppointment id1 1000 (booking ana "65f000000000000000000a04" wednesday 0 0);
        CreateAppointment id2 2000 (booking luis "65f000000000000000000a04" wednesday 1 0) ]
    shop.

(** The staff member stops working on Mondays. *)
Definition no_mondays : BarberCreate :=
  {| bc_user_id := "65f000000000000000000c01";
     bc_schedule := Some {[ "tuesday" := {[ "start" := "09:00"; "end" := "17:15" ]} ]} |}.

(** A clock that is read before any of the days above. *)
Definition early_clock : nat → datetime := λ _, combine monday 0 - 1.

(** * Properties *)

Ltac unfold_handler :=
  unfold try_except, bind, lift, raise, ret, services_find_one, barbers_find_one,
    barbers_find_one_by_user, appointments_find_one, appointments_find,
    appointments_insert_one, appointments_update_one, services_update_one in *.

(** ** Values, filters and updates *)

Lemma eq_str_true v s : eq_str v s = true ↔ v = VStr s.
Proof.
  destruct v; simpl; try (split; [discriminate | congruence]).
  rewrite String.eqb_eq. split; congruence.
Qed.

Lemma valid_statuses_spec v :
  existsb (eq_str v) valid_statuses = true ↔ is_valid_status v.
Proof.
  unfold valid_statuses, is_valid_status. simpl.
  rewrite !orb_true_iff, !eq_str_true. intuition discriminate.
Qed.

Lemma valid_status_truthy v : is_valid_status v → truthy v = true.
Proof. intros [->|[->|[->| ->]]]; reflexivity. Qed.

Lemma status_update_status st t d : (status_update st t ∪ d) !! "status" = Some st.
Proof.
  unfold status_update. apply lookup_union_Some_l. by rewrite lookup_insert_eq.
Qed.

Lemma status_update_updated_at st t d :
  (status_update st t ∪ d) !! "updated_at" = Some (VDate t).
Proof.
  unfold status_update. apply lookup_union_Some_l.
  rewrite lookup_insert_ne by done. by rewrite lookup_insert_eq.
Qed.

Lemma status_update_other st t d k :
  k ≠ "status"%string → k ≠ "updated_at"%string → (status_update st t ∪ d) !! k = d !! k.
Proof.
  intros H1 H2. unfold status_update. apply lookup_union_r.
  rewrite !lookup_insert_ne by done. apply lookup_empty.
Qed.

Lemma status_active_update st t d :
  status_active (status_update st t ∪ d) =
  field_matches (λ v, eq_str v STATUS_PENDING || eq_str v STATUS_CONFIRMED)
    (<["status" := st]> ∅) "status".
Proof.
  unfold status_active, field_matches.
  by rewrite status_update_status, lookup_insert_eq.
Qed.

Lemma busy_of_update svcs st t d : busy_of svcs (status_update st t ∪ d) = busy_of svcs d.
Proof.
  unfold busy_of, getitem. by rewrite !status_update_other.
Qed.

Lemma has_id_update oid st t d : has_id oid (status_update st t ∪ d) = has_id oid d.
Proof. unfold has_id, field_matches. by rewrite status_update_other. Qed.

(** The shape of a collection after [update_one]: nothing matched and nothing
    changed, or the first match, and only it, received the keys. *)
Lemma update_one_doc_spec p upd l :
  (update_one_doc p upd l = (0, l) ∧ Forall (λ d, p d = false) l) ∨
  (∃ l1 d l2, l = l1 ++ d :: l2 ∧ Forall (λ d, p d = false) l1 ∧ p d = true ∧
              update_one_doc p upd l = (1, l1 ++ (upd ∪ d) :: l2)).
Proof.
  induction l as [|d l IH]; simpl.
  - left. by split.
  - destruct (p d) eqn:Hp.
    + right. exists [], d, l. by repeat split.
    + destruct IH as [[-> HF]|(l1 & d' & l2 & -> & HF & Hd & ->)].
      * left. split; [done|]. by constructor.
      * right. exists (d :: l1), d', l2. repeat split; [by constructor|done].
Qed.

Lemma find_one_doc_first p l l1 d l2 :
  l = l1 ++ d :: l2 → Forall (λ d, p d = false) l1 → p d = true →
  find_one_doc (λ d, Ok (p d)) l = Ok (Some d).
Proof.
  intros -> HF Hd. induction HF as [|x l1 Hx HF IH]; simpl.
  - by rewrite Hd.
  - by rewrite Hx.
Qed.

Lemma find_one_doc_total p l :
  (find_one_doc (λ d, Ok (p d)) l = Ok None ∧ Forall (λ d, p d = false) l) ∨
  (∃ l1 d l2, l = l1 ++ d :: l2 ∧ Forall (λ d, p d = false) l1 ∧ p d = true ∧
              find_one_doc (λ d, Ok (p d)) l = Ok (Some d)).
Proof.
  induction l as [|d l IH]; simpl.
  - left. by split.
  - destruct (p d) eqn:Hp.
    + right. exists [], d, l. by repeat split.
    + destruct IH as [[-> HF]|(l1 & d' & l2 & -> & HF & Hd & ->)].
      * left. split; [done|]. by constructor.
      * right. exists (d :: l1), d', l2. repeat split; [by constructor|done].
Qed.

Lemma first_match_unique {A} (p : A → bool) l1 d l2 l1' d' l2' :
  l1 ++ d :: l2 = l1' ++ d' :: l2' →
  Forall (λ d, p d = false) l1 → p d = true →
  Forall (λ d, p d = false) l1' → p d' = true →
  l1 = l1' ∧ d = d' ∧ l2 = l2'.
Proof.
  revert l1'. induction l1 as [|x l1 IH]; intros [|x' l1'] Heq H1 Hd H1' Hd'; simpl in *.
  - by simplify_eq.
  - simplify_eq. inversion H1'; congruence.
  - simplify_eq. inversion H1; congruence.
  - simplify_eq. inversion H1; inversion H1'; subst.
    destruct (IH l1') as (-> & -> & ->); auto.
Qed.

(** ** Status transitions *)

Lemma can_update_authorized db actor appointment :
  authorized db actor appointment → can_update actor appointment db = (Ok true, db).
Proof.
  unfold authorized, can_update. unfold_handler.
  intros [Hr|[[Hr Hc]|[Hr (b & Hb & Hk)]]]; rewrite Hr; simpl.
  - reflexivity.
  - unfold getitem. rewrite Hc. simpl. by rewrite String.eqb_refl.
  - rewrite Hb. unfold getitem. rewrite Hk. simpl. by rewrite String.eqb_refl.
Qed.

Lemma can_update_reads_only db actor appointment :
  snd (can_update actor appointment db) = db.
Proof.
  unfold can_update. unfold_handler.
  repeat (case_match; simpl in *; simplify_eq; try done).
Qed.

Lemma ObjectId_raises s e : ObjectId s = Raise e → e = InvalidId s.
Proof. unfold ObjectId. intros H. repeat case_match; congruence. Qed.

Lemma can_update_raises db actor appointment e db' :
  can_update actor appointment db = (Raise e, db') → ∃ k, e = KeyError k.
Proof.
  unfold can_update, getitem. unfold_handler.
  intros H. repeat (case_match; simpl in *; simplify_eq); eauto.
Qed.

(** What a call of [update_appointment_status] leaves behind: the database it
    found, or that database with the keys of the update on the first
    appointment carrying the requested id. *)
Lemma update_appointment_status_inv utcnow appointment_id status_data actor db :
  let status := field_ref status_data "status" in
  let out := update_appointment_status utcnow appointment_id status_data actor db in
  (snd out = db ∧ ∃ e, fst out = Raise e) ∨
  (∃ oid l1 d l2,
     is_valid_status status ∧
     ObjectId appointment_id = Ok oid ∧
     appointments db = l1 ++ d :: l2 ∧
     Forall (λ d, has_id oid d = false) l1 ∧
     has_id oid d = true ∧
     can_update actor d db = (Ok true, db) ∧
     out = (Ok ("Estado de cita actualizado a " ++ str_of_value status)%string,
            {| services := services db; barbers := barbers db;
               appointments := l1 ++ (status_update status utcnow ∪ d) :: l2 |})).
Proof.
  intros status out. subst out. unfold update_appointment_status. fold status.
  unfold_handler.
  destruct (truthy status) eqn:Ht; cbn [negb]; [|left; eauto].
  destruct (existsb (eq_str status) valid_statuses) eqn:Hv; cbn [negb]; [|left; eauto].
  apply valid_statuses_spec in Hv.
  destruct (ObjectId appointment_id) as [oid|e] eqn:Hoid; [|left; eauto].
  cbv beta.
  destruct (find_one_doc_total (has_id oid) (appointments db))
    as [[-> _]|(l1 & d & l2 & Hl & HF & Hd & ->)]; [left; eauto|].
  pose proof (can_update_reads_only db actor d) as Hsnd.
  destruct (can_update actor d db) as [[[]|e] db'] eqn:Hc; simpl in Hsnd; subst db';
    simpl; [|left; eauto|left; eauto].
  destruct (update_one_doc_spec (has_id oid) (status_update status utcnow) (appointments db))
    as [[_ HF']|(l1' & d' & l2' & Hl' & HF' & Hd' & ->)].
  - exfalso. rewrite Hl in HF'. apply Forall_app in HF' as [_ HF'].
    inversion HF'; congruence.
  - rewrite Hl in Hl'.
    destruct (first_match_unique (has_id oid) _ _ _ _ _ _ Hl' HF Hd HF' Hd') as (<- & <- & <-).
    simpl. right. exists oid, l1, d, l2. by repeat split.
Qed.

(** C7.  [update_appointment_status] is rejected at the status validation
    exactly when the requested status is not one of the four literals; with
    one of the four, an existing appointment and an authorized actor (admin,
    owning client, assigned staff member), the call succeeds whatever the
    current status and whatever else is booked, and changes nothing but the
    [status] and [updated_at] keys of that appointment. *)
Theorem transition_status_validation_and_effect
    utcnow appointment_id status_data actor db :
  let status := field_ref status_data "status" in
  let out := update_appointment_status utcnow appointment_id status_data actor db in
  (invalid_status_error (fst out) ↔ ¬ is_valid_status status) ∧
  (∀ oid l1 appointment l2,
     is_valid_status status →
     ObjectId appointment_id = Ok oid →
     appointments db = l1 ++ appointment :: l2 →
     Forall (λ d, has_id oid d = false) l1 →
     has_id oid appointment = true →
     authorized db actor appointment →
     ∃ appointment',
       out = (Ok ("Estado de cita actualizado a " ++ str_of_value status)%string,
              {| services := services db; barbers := barbers db;
                 appointments := l1 ++ appointment' :: l2 |}) ∧
       appointment' !! "status" = Some status ∧
       appointment' !! "updated_at" = Some (VDate utcnow) ∧
       ∀ k, k ≠ "status"%string → k ≠ "updated_at"%string →
            appointment' !! k = appointment !! k).
Proof.
  intros status out. split.
  - subst out. unfold update_appointment_status. fold status. unfold_handler.
    unfold invalid_status_error.
    destruct (truthy status) eqn:Ht; cbn [negb fst].
    + destruct (existsb (eq_str status) valid_statuses) eqn:Hv; cbn [negb fst].
      * apply valid_statuses_spec in Hv. split; [|tauto].
        intros H. exfalso.
        destruct (ObjectId appointment_id) as [oid|e] eqn:Hoid;
          [|apply ObjectId_raises in Hoid as ->; cbn [fst] in H; destruct H; simplify_eq].
        cbv beta in H.
        destruct (find_one_doc_total (has_id oid) (appointments db))
          as [[Hf _]|(l1 & d & l2 & _ & _ & _ & Hf)]; rewrite Hf in H;
          [cbn [fst] in H; destruct H; simplify_eq|].
        destruct (can_update actor d db) as [[[]|e] db'] eqn:Hc; cbn [negb fst] in H.
        -- destruct (update_one_doc (has_id oid) (status_update status utcnow) (appointments db'))
             as [n l]. destruct (n =? 0); cbn [fst] in H; destruct H; simplify_eq.
        -- destruct H; simplify_eq.
        -- apply can_update_raises in Hc as [k ->]. destruct H; simplify_eq.
      * split; [|auto]. intros _ Hvalid. apply valid_statuses_spec in Hvalid. congruence.
    + split; [|auto]. intros _ Hvalid. apply valid_status_truthy in Hvalid. congruence.
  - intros oid l1 appointment l2 Hvalid Hoid Hl HF Hid Hauth.
    destruct (update_appointment_status_inv utcnow appointment_id status_data actor db)
      as [[Hsnd [e He]]|(oid' & l1' & d & l2' & _ & Hoid' & Hl' & HF' & Hd' & _ & Hout)].
    + exfalso. revert He. unfold update_appointment_status. fold status. unfold_handler.
      rewrite (valid_status_truthy _ Hvalid). cbn [negb].
      apply valid_statuses_spec in Hvalid. rewrite Hvalid. cbn [negb]. rewrite Hoid.
      rewrite (find_one_doc_first (has_id oid) _ _ _ _ Hl HF Hid).
      rewrite (can_update_authorized _ _ _ Hauth). simpl.
      destruct (update_one_doc_spec (has_id oid) (status_update status utcnow) (appointments db))
        as [[_ HF']|(l1' & d' & l2' & Hl' & HF' & Hd' & ->)]; [|simpl; discriminate].
      rewrite Hl in HF'. apply Forall_app in HF' as [_ HF']. inversion HF'; congruence.
    + rewrite Hoid in Hoid'. simplify_eq. rewrite Hl in Hl'.
      destruct (first_match_unique (has_id oid') _ _ _ _ _ _ Hl' HF Hid HF' Hd') as (<- & <- & <-).
      exists (status_update status utcnow ∪ appointment). split; [exact Hout|].
      split; [apply status_update_status|].
      split; [apply status_update_updated_at|].
      intros k. apply status_update_other.
Qed.

(** ** Non-overlap *)

Lemma lookup_middle_changed {A} (l1 : list A) d d' l2 i a' :
  (l1 ++ d' :: l2) !! i = Some a' →
  ∃ a, (l1 ++ d :: l2) !! i = Some a ∧ (a' = a ∨ (a' = d' ∧ a = d)).
Proof.
  intros H. destruct (decide (i = List.length l1)) as [->|Hne].
  - rewrite list_lookup_middle in H by done. simplify_eq.
    exists d. split; [by rewrite list_lookup_middle|auto].
  - exists a'. split; [|auto].
    destruct (decide (i < List.length l1)%nat).
    + rewrite lookup_app_l in H |- * by done. done.
    + rewrite lookup_app_r in H |- * by lia.
      destruct (i - List.length l1)%nat eqn:E; [lia|]. done.
Qed.

Lemma status_active_inactive_update st t d :
  st = VStr STATUS_COMPLETED ∨ st = VStr STATUS_CANCELLED →
  status_active (status_update st t ∪ d) = false.
Proof. intros [->| ->]; by rewrite status_active_update. Qed.

(** C1, as the handlers have it.  A status transition keeps the appointments
    of every staff member free of overlaps among the pending and confirmed
    ones whenever it does not bring an appointment back: the new status is
    completed or cancelled, or the appointment it addresses is pending or
    confirmed already. *)
Theorem transition_preserves_non_overlap utcnow appointment_id status_data actor db :
  non_overlap db →
  (field_ref status_data "status" = VStr STATUS_COMPLETED
   ∨ field_ref status_data "status" = VStr STATUS_CANCELLED
   ∨ ∃ oid l1 d l2,
       ObjectId appointment_id = Ok oid ∧
       appointments db = l1 ++ d :: l2 ∧
       Forall (λ d, has_id oid d = false) l1 ∧
       has_id oid d = true ∧
       status_active d = true) →
  non_overlap (snd (update_appointment_status utcnow appointment_id status_data actor db)).
Proof.
  intros Hinv Hside.
  destruct (update_appointment_status_inv utcnow appointment_id status_data actor db)
    as [[-> _]|(oid & l1 & d & l2 & Hvalid & Hoid & Hl & HF & Hd & _ & ->)]; [done|].
  set (st := field_ref status_data "status") in *.
  set (d' := status_update st utcnow ∪ d).
  assert (Hkeep : status_active d' = true → status_active d = true).
  { intros Hact. destruct Hside as [Hs|[Hs|(oid0 & l0 & d0 & l0' & Hoid0 & Hl0 & HF0 & Hd0 & Hact0)]].
    - subst d'. rewrite status_active_inactive_update in Hact by auto. done.
    - subst d'. rewrite status_active_inactive_update in Hact by auto. done.
    - rewrite Hoid in Hoid0. simplify_eq. rewrite Hl in Hl0.
      by destruct (first_match_unique (has_id oid0) _ _ _ _ _ _ Hl0 HF Hd HF0 Hd0) as (_ & -> & _). }
  assert (Hback : ∀ i a', (l1 ++ d' :: l2) !! i = Some a' →
            ∃ a, appointments db !! i = Some a ∧
                 a !! "barber_id" = a' !! "barber_id" ∧
                 busy_of (services db) a = busy_of (services db) a' ∧
                 (status_active a' = true → status_active a = true)).
  { intros i a' Hi. rewrite Hl.
    destruct (lookup_middle_changed l1 d d' l2 i a' Hi) as (a & Ha & [->|[-> ->]]).
    - exists a. by repeat split.
    - exists d. subst d'. repeat split; [done| |by rewrite busy_of_update|done].
      by rewrite status_update_other. }
  intros i j a' b' x y Hij Hi Hj Hb Ha' Hb' Hx Hy. simpl in *.
  destruct (Hback i a' Hi) as (a & Hai & Hab & Hax & Haa).
  destruct (Hback j b' Hj) as (b & Hbj & Hbb & Hbx & Hba).
  apply (Hinv i j a b x y); auto.
  - congruence.
  - unfold occupied in *. simpl in *. congruence.
  - unfold occupied in *. simpl in *. congruence.
Qed.

(** ** Booking *)

(** The outcomes of [create_appointment]: an exception and the database as
    it was, or one more appointment at the end of the collection. *)
Lemma create_appointment_inv new_id utcnow appointment_data db :
  (∃ e, create_appointment new_id utcnow appointment_data db = (Raise e, db)) ∨
  (∃ sid service,
     ObjectId (service_id appointment_data) = Ok sid ∧
     List.find (λ s, String.eqb (service_oid s) sid) (services db) = Some service ∧
     find_one_doc
       (conflict_query appointment_data
          (scheduled_at appointment_data + timedelta (duration_minutes service)))
       (appointments db) = Ok None ∧
     create_appointment new_id utcnow appointment_data db =
       (Ok (<["id" := VStr new_id]> (new_appointment_dict utcnow appointment_data service)),
        {| services := services db; barbers := barbers db;
           appointments := appointments db ++
             [<["_id" := VObjectId new_id]>
                (new_appointment_dict utcnow appointment_data service)] |})).
Proof.
  unfold create_appointment. unfold_handler.
  destruct (ObjectId (service_id appointment_data)) as [sid|e] eqn:Hsid; [|left; eauto].
  destruct (List.find _ (services db)) as [service|] eqn:Hsvc; [|left; eauto].
  destruct (ObjectId (barber_id appointment_data)) as [bid|e] eqn:Hbid; [|left; eauto].
  destruct (List.find _ (barbers db)) as [barber|] eqn:Hb; [|left; eauto].
  destruct (find_one_doc _ (appointments db)) as [[x|]|e] eqn:Hq;
    [left; eauto| |left; eauto].
  right. exists sid, service. eauto.
Qed.

(** A document with a date under [scheduled_at] and no [duration_minutes]
    key is never matched by the conflict lookup: the product, then the sum,
    are null, and null is not greater than a date. *)
Lemma conflict_query_as_booked appointment_data appointment_end d :
  as_booked d → conflict_query appointment_data appointment_end d = Ok false.
Proof.
  intros [Hd [t Ht]]. unfold conflict_query, conflict_expr, field_ref.
  rewrite Hd, Ht. simpl. by destruct (_ && _ && _).
Qed.

Lemma find_one_doc_as_booked appointment_data appointment_end l :
  Forall as_booked l →
  find_one_doc (conflict_query appointment_data appointment_end) l = Ok None.
Proof.
  induction 1 as [|d l Hd _ IH]; simpl; [done|].
  by rewrite conflict_query_as_booked.
Qed.

Lemma new_appointment_dict_keys utcnow appointment_data service :
  let d := new_appointment_dict utcnow appointment_data service in
  d !! "duration_minutes" = None ∧
  d !! "total_price" = Some (VFloat (price service)) ∧
  d !! "status" = Some (VStr STATUS_PENDING) ∧
  d !! "scheduled_at" = Some (VDate (scheduled_at appointment_data)) ∧
  d !! "barber_id" = Some (VStr (barber_id appointment_data)) ∧
  d !! "service_id" = Some (VStr (service_id appointment_data)) ∧
  d !! "client_id" = Some (VStr (client_id appointment_data)).
Proof.
  unfold new_appointment_dict, AppointmentCreate_dict.
  repeat split;
    repeat (first [rewrite lookup_insert_eq | rewrite lookup_insert_ne by done]);
    first [done | apply lookup_empty].
Qed.

(** No operation of the core puts a [duration_minutes] key on an
    appointment, or takes the date away from [scheduled_at]. *)
Lemma step_as_booked db op :
  Forall as_booked (appointments db) → Forall as_booked (appointments (step db op)).
Proof.
  intros H. destruct op as [new_id t data|t aid sd actor]; simpl.
  - destruct (create_appointment_inv new_id t data db)
      as [[e ->]|(sid & service & _ & _ & _ & ->)]; [done|]. simpl.
    apply Forall_app. split; [done|]. constructor; [|done].
    unfold as_booked. rewrite !lookup_insert_ne by done.
    split; [apply new_appointment_dict_keys|].
    eexists. apply new_appointment_dict_keys.
  - destruct (update_appointment_status_inv t aid sd actor db)
      as [[-> _]|(oid & l1 & d & l2 & _ & _ & Hl & _ & _ & _ & ->)]; [done|]. simpl.
    rewrite Hl in H. apply Forall_app in H as [H1 H2]. inversion H2; subst.
    apply Forall_app. split; [done|]. constructor; [|done].
    unfold as_booked. by rewrite !status_update_other.
Qed.

Lemma run_as_booked ops db :
  Forall as_booked (appointments db) → Forall as_booked (appointments (run ops db)).
Proof.
  unfold run. revert db. induction ops as [|op ops IH]; intros db H; simpl; [done|].
  apply IH. by apply step_as_booked.
Qed.

(** Whatever has been booked through the handlers, the conflict lookup of
    [create_appointment] finds nothing. *)
Lemma conflict_lookup_finds_nothing ops db0 appointment_data appointment_end :
  appointments db0 = [] →
  find_one_doc (conflict_query appointment_data appointment_end)
    (appointments (run ops db0)) = Ok None.
Proof.
  intros H0. apply find_one_doc_as_booked.
  apply run_as_booked. rewrite H0. constructor.
Qed.

(** C10.  [create_appointment] is atomic on failure: whenever it raises, the
    database is the one it was called on. *)
Theorem create_appointment_atomic_on_failure new_id utcnow appointment_data db e :
  fst (create_appointment new_id utcnow appointment_data db) = Raise e →
  snd (create_appointment new_id utcnow appointment_data db) = db.
Proof.
  destruct (create_appointment_inv new_id utcnow appointment_data db)
    as [[e' ->]|(sid & service & _ & _ & _ & ->)]; [done|].
  simpl. discriminate.
Qed.

Lemma create_appointment_atomic_on_failure_witness :
  snd (create_appointment id1 1000 (booking ana "65f0000000000000000000ff" monday 10 0) shop)
  = shop.
Proof.
  apply (create_appointment_atomic_on_failure _ _ _ _
           (HTTPException 400 (StrOf (HTTPException 404 (Msg "Servicio no encontrado"))))).
  vm_compute. reflexivity.
Defined.

(** C4, on the code.  The record that a successful [create_appointment]
    persists carries the price of the service under [total_price] and has no
    [duration_minutes] key. *)
Theorem created_record_has_price_and_no_duration new_id utcnow appointment_data db r :
  fst (create_appointment new_id utcnow appointment_data db) = Ok r →
  ∃ sid service record,
    ObjectId (service_id appointment_data) = Ok sid ∧
    List.find (λ s, String.eqb (service_oid s) sid) (services db) = Some service ∧
    appointments (snd (create_appointment new_id utcnow appointment_data db))
      = appointments db ++ [record] ∧
    record !! "total_price" = Some (VFloat (price service)) ∧
    record !! "duration_minutes" = None.
Proof.
  destruct (create_appointment_inv new_id utcnow appointment_data db)
    as [[e' ->]|(sid & service & Hsid & Hsvc & _ & ->)]; [discriminate|].
  intros _.
  exists sid, service,
    (<["_id" := VObjectId new_id]> (new_appointment_dict utcnow appointment_data service)).
  split; [done|]. split; [done|]. split; [done|].
  rewrite !lookup_insert_ne by done. split; apply new_appointment_dict_keys.
Qed.

Lemma created_record_has_price_and_no_duration_witness :
  ∃ sid service record,
    ObjectId (service_id (booking ana "65f000000000000000000a02" monday 10 0)) = Ok sid ∧
    List.find (λ s, String.eqb (service_oid s) sid) (services shop) = Some service ∧
    appointments
      (snd (create_appointment id1 1000 (booking ana "65f000000000000000000a02" monday 10 0)
              shop))
      = appointments shop ++ [record] ∧
    record !! "total_price" = Some (VFloat (price service)) ∧
    record !! "duration_minutes" = None.
Proof.
  apply (created_record_has_price_and_no_duration id1 1000
           (booking ana "65f000000000000000000a02" monday 10 0) shop
           (<["id" := VStr id1]>
              (new_appointment_dict 1000
                 (booking ana "65f000000000000000000a02" monday 10 0) corte_barba))).
  reflexivity.
Defined.

(** The conflict lookup on a record that does carry a duration: the
    half-open rule. *)
Lemma conflict_query_with_duration appointment_data appointment_end d t m :
  d !! "barber_id" = Some (VStr (barber_id appointment_data)) →
  d !! "scheduled_at" = Some (VDate t) →
  d !! "duration_minutes" = Some (VInt m) →
  status_active d = true →
  conflict_query appointment_data appointment_end d =
    Ok ((t <? appointment_end) && (t + m * 60000 >? scheduled_at appointment_data)).
Proof.
  intros Hb Ht Hm Ha. unfold conflict_query, conflict_expr, field_ref, field_matches.
  rewrite Hb, Ht, Hm, Ha. simpl. rewrite String.eqb_refl. simpl.
  by destruct (t <? appointment_end).
Qed.

(** The slot filter is the half-open rule. *)
Lemma slot_conflicts_iff current_slot slot_end a :
  slot_conflicts current_slot slot_end a = true ↔
  overlap current_slot slot_end (busy_start a) (busy_end a).
Proof.
  unfold slot_conflicts, overlap. rewrite andb_true_iff. lia.
Qed.

Lemma slot_back_to_back current_slot a :
  current_slot + timedelta 30 = busy_start a ∨ busy_end a = current_slot →
  slot_conflicts current_slot (current_slot + timedelta 30) a = false.
Proof.
  intros H. apply not_true_is_false. rewrite slot_conflicts_iff. unfold overlap. lia.
Qed.

(** On the stores the handlers produce, a booking is never refused for a
    conflict. *)
Lemma create_appointment_never_conflicts ops db0 new_id utcnow appointment_data :
  appointments db0 = [] →
  fst (create_appointment new_id utcnow appointment_data (run ops db0))
    ≠ Raise scheduling_conflict.
Proof.
  intros H0. unfold create_appointment. unfold_handler.
  destruct (ObjectId (service_id appointment_data)) as [sid|e] eqn:Hsid;
    [|apply ObjectId_raises in Hsid as ->; discriminate].
  destruct (List.find _ (services _)) as [service|]; [|discriminate].
  destruct (ObjectId (barber_id appointment_data)) as [bid|e] eqn:Hbid;
    [|apply ObjectId_raises in Hbid as ->; discriminate].
  destruct (List.find _ (barbers _)) as [barber|]; [|discriminate].
  rewrite conflict_lookup_finds_nothing by done. discriminate.
Qed.

(** C2, on the code.  With Ana's pending appointment occupying Monday
    10:00-10:45, the same staff member and the same 45-minute service are
    booked again for Monday 10:00: the call returns the new appointment and
    the store holds both. *)
Theorem identical_booking_is_accepted :
  ∃ existing r db2,
    appointments one_booking = [existing] ∧
    existing !! "barber_id" = Some (VStr "65f000000000000000000b01") ∧
    status_active existing = true ∧
    occupied one_booking existing = Ok ten_to_quarter_to_eleven ∧
    create_appointment id2 3000 (booking luis "65f000000000000000000a02" monday 10 0)
      one_booking = (Ok r, db2) ∧
    r !! "status" = Some (VStr STATUS_PENDING) ∧
    List.length (appointments db2) = 2%nat.
Proof.
  do 3 eexists. repeat split; vm_compute; reflexivity.
Qed.

(** C3, on the code.  A 30-minute booking at Monday 10:44 overlaps Ana's
    10:00-10:45 by one minute, and is accepted. *)
Theorem one_minute_overlap_is_accepted :
  ∃ existing r db2,
    appointments one_booking = [existing] ∧
    status_active existing = true ∧
    occupied one_booking existing = Ok ten_to_quarter_to_eleven ∧
    overlap (combine monday (hm 10 44)) (combine monday (hm 10 44) + timedelta 30)
      (busy_start ten_to_quarter_to_eleven) (busy_end ten_to_quarter_to_eleven) ∧
    busy_end ten_to_quarter_to_eleven - combine monday (hm 10 44) = timedelta 1 ∧
    create_appointment id2 3000 (booking luis "65f000000000000000000a01" monday 10 44)
      one_booking = (Ok r, db2) ∧
    List.length (appointments db2) = 2%nat.
Proof.
  do 3 eexists. repeat split; vm_compute; reflexivity.
Qed.

(** C1, as stated, fails: after the four calls of [reactivation] the staff
    member has a confirmed and a pending appointment on the same interval. *)
Lemma reactivation_breaks_non_overlap : ¬ non_overlap (run reactivation shop).
Proof.
  intros H.
  refine (H 0%nat 1%nat
            (default ∅ (appointments (run reactivation shop) !! 0%nat))
            (default ∅ (appointments (run reactivation shop) !! 1%nat))
            ten_to_quarter_to_eleven ten_to_quarter_to_eleven _ _ _ _ _ _ _ _ _).
  - discriminate.
  - reflexivity.
  - reflexivity.
  - vm_compute. reflexivity.
  - vm_compute. reflexivity.
  - vm_compute. reflexivity.
  - vm_compute. reflexivity.
  - vm_compute. reflexivity.
  - vm_compute. split; reflexivity.
Qed.

(** When Luis books, Ana's appointment is cancelled: no pending or confirmed
    appointment is in the store, so no conflict lookup, whatever duration it
    used, could have refused him. *)
Example reactivation_books_over_a_cancelled_slot :
  forallb (λ d, negb (status_active d)) (appointments (run (take 2 reactivation) shop)) = true.
Proof. vm_compute. reflexivity. Qed.

(** ** Services *)

(** C8.  [update_service] leaves the appointments as they are; each keeps
    the [total_price] it was booked with. *)
Theorem update_service_keeps_appointments utcnow service_id service_data current_user db :
  let db' := snd (update_service utcnow service_id service_data current_user db) in
  appointments db' = appointments db ∧
  ∀ (i : nat) (d : gmap string value), appointments db !! i = Some d →
    ∃ d', appointments db' !! i = Some d' ∧ d' !! "total_price" = d !! "total_price".
Proof.
  assert (H : appointments (snd (update_service utcnow service_id service_data current_user db))
              = appointments db).
  { unfold update_service. unfold_handler.
    destruct (negb _); [done|].
    destruct (ObjectId service_id) as [oid|e]; [|done].
    destruct (update_one_service oid _ (services db)) as [n l].
    by destruct (n =? 0). }
  split; [exact H|]. intros i d Hd. exists d. by rewrite H.
Qed.

(** Ana books the 45-minute service at 35; the price is raised to 40; her
    appointment still says 35. *)
Example price_is_a_snapshot :
  let db' := snd (update_service 5000 "65f000000000000000000a02" new_price admin one_booking) in
  (price <$> services db' !! 1%nat) = Some (Float 40 0) ∧
  (appointments db' !! 0%nat) ≫= (λ d, d !! "total_price") = Some (VFloat (Float 35 0)).
Proof. split; vm_compute; reflexivity. Qed.

(** ** Availability *)

Lemma timedelta_30 : timedelta 30 = 1800000.
Proof. reflexivity. Qed.

(** The loop ends: the fuel [get_barber_availability] gives it is enough. *)
Lemma slots_loop_terminates fuel clock reads appointments end_datetime current_slot :
  (slots_fuel end_datetime current_slot ≤ fuel)%nat →
  ∃ l, slots_loop fuel clock reads appointments end_datetime current_slot = Some l.
Proof.
  revert reads current_slot.
  induction fuel as [|fuel IH]; intros reads current_slot Hfuel; simpl.
  - destruct (current_slot <? end_datetime) eqn:Hlt; [|eauto].
    apply Z.ltb_lt in Hlt. exfalso. unfold slots_fuel in Hfuel.
    rewrite timedelta_30 in Hfuel.
    assert (0 ≤ (end_datetime - current_slot) / 1800000) by (apply Z.div_pos; lia). lia.
  - destruct (current_slot <? end_datetime) eqn:Hlt; [|eauto].
    apply Z.ltb_lt in Hlt.
    assert (Hnext : (slots_fuel end_datetime (current_slot + timedelta 30)%Z ≤ fuel)%nat).
    { unfold slots_fuel in *. rewrite timedelta_30 in *.
      assert (0 ≤ (end_datetime - current_slot) / 1800000) by (apply Z.div_pos; lia).
      replace (end_datetime - (current_slot + 1800000))
        with (end_datetime - current_slot + (-1) * 1800000) by lia.
      rewrite Z.div_add by lia. lia. }
    destruct (is_available _ _ _).
    + destruct (IH (S reads) _ Hnext) as [l ->].
      destruct (_ >? _); simpl; eauto.
    + apply IH, Hnext.
Qed.

(** So the out-of-fuel branch of [get_barber_availability] is never taken. *)
Lemma slots_loop_enough_fuel clock reads appointments end_datetime current_slot :
  slots_loop (slots_fuel end_datetime current_slot) clock reads appointments
    end_datetime current_slot ≠ None.
Proof.
  destruct (slots_loop_terminates (slots_fuel end_datetime current_slot) clock reads
              appointments end_datetime current_slot) as [l ->]; [lia|done].
Qed.

(** What the loop emits: instants on the 30-minute grid that starts at the
    opening time, before the closing time, free of the fetched intervals,
    and later than the clock reading they were compared with. *)
Lemma slots_loop_sound fuel clock reads appointments end_datetime current_slot l t :
  slots_loop fuel clock reads appointments end_datetime current_slot = Some l →
  t ∈ l →
  current_slot ≤ t < end_datetime ∧
  (∃ k, 0 ≤ k ∧ t = current_slot + k * timedelta 30) ∧
  is_available appointments t (t + timedelta 30) = true ∧
  ∃ n, clock n < t.
Proof.
  revert reads current_slot l.
  induction fuel as [|fuel IH]; intros reads current_slot l; simpl.
  - destruct (current_slot <? end_datetime); [discriminate|].
    intros [= <-] Ht. by apply elem_of_nil in Ht.
  - destruct (current_slot <? end_datetime) eqn:Hlt;
      [|intros [= <-] Ht; by apply elem_of_nil in Ht].
    apply Z.ltb_lt in Hlt.
    assert (Hstep : ∀ reads' l', slots_loop fuel clock reads' appointments end_datetime
                (current_slot + timedelta 30) = Some l' → t ∈ l' →
              current_slot ≤ t < end_datetime ∧
              (∃ k, 0 ≤ k ∧ t = current_slot + k * timedelta 30) ∧
              is_available appointments t (t + timedelta 30) = true ∧
              ∃ n, clock n < t).
    { intros reads' l' Hl' Ht'.
      destruct (IH _ _ _ Hl' Ht') as (Hr & (k & Hk & ->) & Ha & Hn).
      rewrite timedelta_30 in *.
      repeat split; [lia|lia| |done|done].
      exists (k + 1). split; lia. }
    destruct (is_available appointments current_slot _) eqn:Hav; [|apply Hstep].
    destruct (current_slot >? clock reads) eqn:Hnow; [|apply Hstep].
    destruct (slots_loop fuel clock (S reads) _ _ _) as [l'|] eqn:Hl'; [|discriminate].
    simpl. intros [= <-] Ht. apply elem_of_cons in Ht as [->|Ht]; [|by eapply Hstep].
    repeat split; [lia|lia| |done|].
    + exists 0. rewrite timedelta_30. split; lia.
    + exists reads. lia.
Qed.

(** A clock that stays behind the first candidate plays no part. *)
Lemma slots_loop_past_clock fuel clock clock' reads reads' appointments end_datetime current_slot :
  (∀ k, clock k < current_slot) → (∀ k, clock' k < current_slot) →
  slots_loop fuel clock reads appointments end_datetime current_slot =
  slots_loop fuel clock' reads' appointments end_datetime current_slot.
Proof.
  revert reads reads' current_slot.
  induction fuel as [|fuel IH]; intros reads reads' current_slot H H'; simpl; [done|].
  assert (Hn : ∀ k, clock k < current_slot + timedelta 30)
    by (intros k; specialize (H k); rewrite timedelta_30; lia).
  assert (Hn' : ∀ k, clock' k < current_slot + timedelta 30)
    by (intros k; specialize (H' k); rewrite timedelta_30; lia).
  destruct (current_slot <? end_datetime); [|done].
  destruct (is_available _ _ _); [|by apply IH].
  replace (current_slot >? clock reads) with true
    by (symmetry; apply Z.gtb_lt; apply H).
  replace (current_slot >? clock' reads') with true
    by (symmetry; apply Z.gtb_lt; apply H').
  f_equal. by apply IH.
Qed.

(** The slot filter, as a statement about intervals. *)
Lemma is_available_spec bs t slot_end :
  is_available bs t slot_end = true ↔
  ∀ b, b ∈ bs → ¬ overlap t slot_end (busy_start b) (busy_end b).
Proof.
  unfold is_available. rewrite negb_true_iff. split.
  - intros H b Hb Ho. apply slot_conflicts_iff in Ho.
    assert (existsb (slot_conflicts t slot_end) bs = true); [|congruence].
    apply existsb_exists. exists b. split; [by apply list_elem_of_In|done].
  - intros H. apply not_true_is_false. intros Hex.
    apply existsb_exists in Hex as (b & Hb & Hc).
    apply (H b); [by apply list_elem_of_In|by apply slot_conflicts_iff].
Qed.

(** What the loop does not leave out: a free instant of the grid that lies
    ahead of the clock. *)
Lemma slots_loop_complete fuel clock reads appointments end_datetime current_slot l t k :
  slots_loop fuel clock reads appointments end_datetime current_slot = Some l →
  0 ≤ k →
  t = current_slot + k * timedelta 30 →
  t < end_datetime →
  is_available appointments t (t + timedelta 30) = true →
  (∀ n, clock n < t) →
  t ∈ l.
Proof.
  revert reads current_slot l k.
  induction fuel as [|fuel IH]; intros reads current_slot l k Hl Hk Ht Hend Hav Hclock;
    rewrite timedelta_30 in *; simpl in Hl.
  - destruct (current_slot <? end_datetime) eqn:Hlt; [discriminate|].
    apply Z.ltb_ge in Hlt. lia.
  - destruct (current_slot <? end_datetime) eqn:Hlt; [|apply Z.ltb_ge in Hlt; lia].
    rewrite timedelta_30 in Hl.
    assert (Hnext : ∀ reads' l', 0 < k →
              slots_loop fuel clock reads' appointments end_datetime
                (current_slot + 1800000) = Some l' → t ∈ l').
    { intros reads' l' Hpos Hl'.
      apply (IH reads' (current_slot + 1800000) l' (k - 1)); try done; lia. }
    destruct (decide (k = 0)) as [->|Hne].
    + replace (current_slot + 0 * 1800000) with current_slot in Ht by lia. subst t.
      rewrite Hav in Hl.
      replace (current_slot >? clock reads) with true in Hl
        by (symmetry; apply Z.gtb_lt; apply Hclock).
      destruct (slots_loop fuel clock (S reads) _ _ _) as [l'|]; [|discriminate].
      simpl in Hl. injection Hl as <-. apply elem_of_cons. auto.
    + destruct (is_available appointments current_slot _); [|apply (Hnext reads); [lia|done]].
      destruct (current_slot >? clock reads); [|apply (Hnext (S reads)); [lia|done]].
      destruct (slots_loop fuel clock (S reads) _ _ _) as [l'|] eqn:Hl'; [|discriminate].
      simpl in Hl. injection Hl as <-. apply elem_of_cons. right.
      apply (Hnext (S reads)); [lia|done].
Qed.

Lemma result_bind_Ok {A B} (r : result A) (k : A → result B) b :
  result_bind r k = Ok b → ∃ a, r = Ok a ∧ k a = Ok b.
Proof. destruct r; simpl; [eauto|discriminate]. Qed.

(** [get_barber_availability], step by step. *)
Lemma get_barber_availability_eval clock barber_id target_date db
    bid barber day_schedule bs open close :
  ObjectId barber_id = Ok bid →
  List.find (λ b, String.eqb (barber_oid b) bid) (barbers db) = Some barber →
  schedule barber !! day_name target_date = Some day_schedule →
  day_schedule ≠ ∅ →
  day_busy db barber_id target_date = Ok bs →
  result_bind (getitem_str day_schedule "start") strptime_HM = Ok open →
  result_bind (getitem_str day_schedule "end") strptime_HM = Ok close →
  get_barber_availability clock barber_id target_date db =
    (Ok (default [] (slots_loop (slots_fuel (combine target_date close)
                                   (combine target_date open)) clock 0 bs
                       (combine target_date close) (combine target_date open))), db).
Proof.
  intros Hbid Hb Hs Hne Hbusy Ho Hc.
  unfold get_barber_availability. unfold_handler.
  rewrite Hbid, Hb, Hs. rewrite bool_decide_eq_false_2 by done.
  unfold day_busy in Hbusy. rewrite Hbusy, Ho, Hc.
  by destruct (slots_loop _ _ _ _ _ _).
Qed.

Lemma get_barber_availability_inv clock barber_id target_date db slots :
  fst (get_barber_availability clock barber_id target_date db) = Ok slots →
  slots = [] ∨
  ∃ bid barber day_schedule bs open close,
    ObjectId barber_id = Ok bid ∧
    List.find (λ b, String.eqb (barber_oid b) bid) (barbers db) = Some barber ∧
    schedule barber !! day_name target_date = Some day_schedule ∧
    day_busy db barber_id target_date = Ok bs ∧
    result_bind (getitem_str day_schedule "start") strptime_HM = Ok open ∧
    result_bind (getitem_str day_schedule "end") strptime_HM = Ok close ∧
    slots_loop (slots_fuel (combine target_date close) (combine target_date open)) clock 0 bs
      (combine target_date close) (combine target_date open) = Some slots.
Proof.
  unfold get_barber_availability. unfold_handler.
  destruct (ObjectId barber_id) as [bid|e] eqn:Hbid; [|discriminate].
  destruct (List.find _ (barbers db)) as [barber|] eqn:Hb; [|discriminate].
  destruct (schedule barber !! day_name target_date) as [day_schedule|] eqn:Hs;
    [|intros [= <-]; by left].
  destruct (bool_decide (day_schedule = ∅)); [intros [= <-]; by left|].
  destruct (busy_list _ _) as [bs|e] eqn:Hbusy; [|discriminate].
  destruct (result_bind (getitem_str day_schedule "start") strptime_HM)
    as [open|e] eqn:Ho; [|discriminate].
  destruct (result_bind (getitem_str day_schedule "end") strptime_HM)
    as [close|e] eqn:Hc; [|discriminate].
  destruct (slots_loop _ _ _ _ _ _) as [l|] eqn:Hl; intros [= <-]; [|by left].
  right. exists bid, barber, day_schedule, bs, open, close. by repeat split.
Qed.

(** The same, keeping apart the day without a schedule, on which nothing is
    fetched, from the day on which the loop runs. *)
Lemma get_barber_availability_cases clock barber_id target_date db slots :
  fst (get_barber_availability clock barber_id target_date db) = Ok slots →
  ∃ bid barber,
    ObjectId barber_id = Ok bid ∧
    List.find (λ b, String.eqb (barber_oid b) bid) (barbers db) = Some barber ∧
    (((schedule barber !! day_name target_date = None ∨
       schedule barber !! day_name target_date = Some ∅) ∧ slots = [])
     ∨
     ∃ day_schedule bs open close,
       schedule barber !! day_name target_date = Some day_schedule ∧
       day_schedule ≠ ∅ ∧
       day_busy db barber_id target_date = Ok bs ∧
       result_bind (getitem_str day_schedule "start") strptime_HM = Ok open ∧
       result_bind (getitem_str day_schedule "end") strptime_HM = Ok close ∧
       slots_loop (slots_fuel (combine target_date close) (combine target_date open)) clock 0 bs
         (combine target_date close) (combine target_date open) = Some slots).
Proof.
  unfold get_barber_availability. unfold_handler.
  destruct (ObjectId barber_id) as [bid|e] eqn:Hbid; [|discriminate].
  destruct (List.find _ (barbers db)) as [barber|] eqn:Hb; [|discriminate].
  intros H. exists bid, barber. split; [done|]. split; [done|]. revert H.
  destruct (schedule barber !! day_name target_date) as [day_schedule|] eqn:Hs;
    [|intros [= <-]; left; auto].
  destruct (bool_decide (day_schedule = ∅)) eqn:He.
  { apply bool_decide_eq_true in He as ->. intros [= <-]. left. auto. }
  apply bool_decide_eq_false in He.
  destruct (busy_list _ _) as [bs|e] eqn:Hbusy; [|discriminate].
  destruct (result_bind (getitem_str day_schedule "start") strptime_HM)
    as [open|e] eqn:Ho; [|discriminate].
  destruct (result_bind (getitem_str day_schedule "end") strptime_HM)
    as [close|e] eqn:Hc; [|discriminate].
  destruct (slots_loop _ _ _ _ _ _) as [l|] eqn:Hl.
  - intros [= <-]. right. exists day_schedule, bs, open, close. by repeat split.
  - by apply slots_loop_enough_fuel in Hl.
Qed.

(** C6, as the handler has it.  Every instant that
    [get_barber_availability] returns lies on the 30-minute grid that starts
    at the opening time and is earlier than the closing time.  It ends by
    the closing time when the window is a whole number of half hours.
    Otherwise one instant of the grid ends after closing, the last one
    before it: no other returned slot does, and that one is among the slots
    returned whenever its half hour is free of the day's occupied intervals
    and it lies ahead of the clock. *)
Theorem emitted_slots_start_before_closing :
  (∀ clock barber_id target_date db slots t,
     fst (get_barber_availability clock barber_id target_date db) = Ok slots →
     t ∈ slots →
     ∃ bid barber day_schedule open close,
       ObjectId barber_id = Ok bid ∧
       List.find (λ b, String.eqb (barber_oid b) bid) (barbers db) = Some barber ∧
       schedule barber !! day_name target_date = Some day_schedule ∧
       result_bind (getitem_str day_schedule "start") strptime_HM = Ok open ∧
       result_bind (getitem_str day_schedule "end") strptime_HM = Ok close ∧
       combine target_date open ≤ t < combine target_date close ∧
       (∃ k, 0 ≤ k ∧ t = combine target_date open + k * timedelta 30) ∧
       ((close - open) mod timedelta 30 = 0 →
        t + timedelta 30 ≤ combine target_date close) ∧
       (combine target_date close < t + timedelta 30 →
        (close - open) mod timedelta 30 ≠ 0 ∧
        t = combine target_date open + (close - open) / timedelta 30 * timedelta 30))
  ∧
  (∀ clock barber_id target_date db slots bid barber day_schedule bs open close,
     fst (get_barber_availability clock barber_id target_date db) = Ok slots →
     ObjectId barber_id = Ok bid →
     List.find (λ b, String.eqb (barber_oid b) bid) (barbers db) = Some barber →
     schedule barber !! day_name target_date = Some day_schedule →
     day_busy db barber_id target_date = Ok bs →
     result_bind (getitem_str day_schedule "start") strptime_HM = Ok open →
     result_bind (getitem_str day_schedule "end") strptime_HM = Ok close →
     open < close →
     (close - open) mod timedelta 30 ≠ 0 →
     let last := combine target_date open + (close - open) / timedelta 30 * timedelta 30 in
     (∀ b, b ∈ bs → ¬ overlap last (last + timedelta 30) (busy_start b) (busy_end b)) →
     (∀ n, clock n < last) →
     last ∈ slots ∧ last < combine target_date close < last + timedelta 30).
Proof.
  split.
  - intros clock barber_id target_date db slots t Hout Ht.
    destruct (get_barber_availability_inv _ _ _ _ _ Hout)
      as [->|(bid & barber & ds & bs & open & close & Hbid & Hb & Hs & _ & Ho & Hc & Hl)];
      [by apply elem_of_nil in Ht|].
    destruct (slots_loop_sound _ _ _ _ _ _ _ _ Hl Ht) as (Hr & (k & Hk & Hgrid) & _ & _).
    exists bid, barber, ds, open, close.
    do 5 (split; [done|]). split; [lia|]. split; [by exists k|].
    pose proof (Z.div_mod (close - open) (timedelta 30)) as Hdm.
    pose proof (Z.mod_pos_bound (close - open) (timedelta 30)) as Hmb.
    rewrite timedelta_30 in *.
    specialize (Hdm ltac:(lia)). specialize (Hmb ltac:(lia)).
    unfold combine in *. split; intros; lia.
  - intros clock barber_id target_date db slots bid barber ds bs open close
      Hout Hbid Hb Hs Hbusy Ho Hc Hwin Hmod last Hfree Hclock.
    assert (Hne : ds ≠ ∅).
    { intros ->. apply result_bind_Ok in Ho as (s & Hs' & _).
      unfold getitem_str in Hs'. by rewrite lookup_empty in Hs'. }
    rewrite (get_barber_availability_eval _ _ _ _ _ _ _ _ _ _ Hbid Hb Hs Hne Hbusy Ho Hc)
      in Hout.
    destruct (slots_loop_terminates
                (slots_fuel (combine target_date close) (combine target_date open))
                clock 0 bs (combine target_date close) (combine target_date open))
      as [l Hl]; [lia|].
    rewrite Hl in Hout. cbn [fst default from_option id] in Hout. injection Hout as ->.
    pose proof (Z.div_mod (close - open) (timedelta 30)) as Hdm.
    pose proof (Z.mod_pos_bound (close - open) (timedelta 30)) as Hmb.
    assert (Hq : 0 ≤ (close - open) / timedelta 30) by (apply Z.div_pos; [lia|done]).
    subst last. rewrite timedelta_30 in *.
    specialize (Hdm ltac:(lia)). specialize (Hmb ltac:(lia)).
    split; [|unfold combine; lia].
    apply (slots_loop_complete _ _ _ _ _ _ _ _ ((close - open) / 1800000) Hl);
      rewrite ?timedelta_30; unfold combine in *; try lia; try done.
    by apply is_available_spec.
Qed.

(** Scenario A: sixteen slots, 09:00 to 16:30. *)
Example scenario_A :
  fst (get_barber_availability early_clock the_barber_id monday shop) = Ok scenario_A_slots
  ∧ List.length scenario_A_slots = 16%nat.
Proof. split; vm_compute; reflexivity. Qed.

(** C5, as stated, fails: in scenario B the 10:45 start is not among the
    slots (nor are 10:00 and 10:30). *)
Lemma scenario_B_does_not_offer_quarter_to_eleven :
  ∃ a slots,
    appointments scenario_B = [a] ∧
    a !! "status" = Some (VStr STATUS_CONFIRMED) ∧
    occupied scenario_B a = Ok ten_to_quarter_to_eleven ∧
    fst (get_barber_availability early_clock the_barber_id monday scenario_B) = Ok slots ∧
    ¬ ((combine monday (hm 10 0) ∉ slots) ∧ (combine monday (hm 10 30) ∉ slots) ∧
       combine monday (hm 10 45) ∈ slots).
Proof.
  exists (default ∅ (appointments scenario_B !! 0%nat)), scenario_B_slots.
  split; [reflexivity|]. split; [vm_compute; reflexivity|].
  split; [vm_compute; reflexivity|]. split; [vm_compute; reflexivity|].
  intros (_ & _ & H). apply list_elem_of_In in H. vm_compute in H.
  repeat (destruct H as [H|H]; [discriminate|]). exact H.
Qed.

(** C5, as the handler has it.  In scenario B, asked before Monday 09:00,
    the slots are 09:00, 09:30 and 11:00 to 16:30 in half-hour steps: 10:00
    and 10:30 are left out, 10:45 is no candidate of the grid, and the first
    slot after the appointment is 11:00. *)
Theorem scenario_B_slots_resume_at_eleven clock :
  (∀ k, clock k < combine monday (hm 9 0)) →
  fst (get_barber_availability clock the_barber_id monday scenario_B) = Ok scenario_B_slots ∧
  (combine monday (hm 10 0) ∉ scenario_B_slots) ∧
  (combine monday (hm 10 30) ∉ scenario_B_slots) ∧
  (combine monday (hm 10 45) ∉ scenario_B_slots) ∧
  combine monday (hm 11 0) ∈ scenario_B_slots.
Proof.
  intros Hclock. split.
  - rewrite (get_barber_availability_eval clock the_barber_id monday scenario_B
               the_barber_id the_barber {[ "start" := "09:00"; "end" := "17:00" ]}%string
               [ten_to_quarter_to_eleven] (hm 9 0) (hm 17 0));
      [|reflexivity|reflexivity|reflexivity|apply insert_non_empty
       |vm_compute; reflexivity|reflexivity|reflexivity].
    cbn [fst]. f_equal.
    rewrite (slots_loop_past_clock _ clock early_clock 0 0);
      [vm_compute; reflexivity|exact Hclock|].
    intros k. vm_compute. reflexivity.
  - repeat split.
    + intros H. apply list_elem_of_In in H. vm_compute in H.
      repeat (destruct H as [H|H]; [discriminate|]). exact H.
    + intros H. apply list_elem_of_In in H. vm_compute in H.
      repeat (destruct H as [H|H]; [discriminate|]). exact H.
    + intros H. apply list_elem_of_In in H. vm_compute in H.
      repeat (destruct H as [H|H]; [discriminate|]). exact H.
    + apply list_elem_of_In. vm_compute. tauto.
Qed.

Lemma scenario_B_slots_resume_at_eleven_witness :
  fst (get_barber_availability early_clock the_barber_id monday scenario_B)
    = Ok scenario_B_slots ∧
  (combine monday (hm 10 0) ∉ scenario_B_slots) ∧
  (combine monday (hm 10 30) ∉ scenario_B_slots) ∧
  (combine monday (hm 10 45) ∉ scenario_B_slots) ∧
  combine monday (hm 11 0) ∈ scenario_B_slots.
Proof.
  apply (scenario_B_slots_resume_at_eleven early_clock).
  intros k. vm_compute. reflexivity.
Defined.

(** C6, as stated, fails: on Tuesday the window closes at 17:15, and the
    17:00 slot is returned, which ends at 17:30. *)
Lemma tuesday_last_slot_ends_after_closing :
  ∃ slots close,
    fst (get_barber_availability early_clock the_barber_id tuesday shop) = Ok slots ∧
    (schedule the_barber !! day_name tuesday) ≫= (λ ds, ds !! "end") = Some "17:15"%string ∧
    strptime_HM "17:15" = Ok close ∧
    ¬ (∀ t, t ∈ slots → t + timedelta 30 ≤ combine tuesday close).
Proof.
  exists tuesday_slots, (hm 17 15).
  split; [vm_compute; reflexivity|]. split; [reflexivity|]. split; [reflexivity|].
  intros H. specialize (H (combine tuesday (hm 17 0))).
  assert (Hin : combine tuesday (hm 17 0) ∈ tuesday_slots).
  { apply list_elem_of_In. vm_compute. tauto. }
  specialize (H Hin). vm_compute in H. by apply H.
Qed.

Lemma emitted_slots_start_before_closing_witness :
  (∃ bid barber day_schedule open close,
     ObjectId the_barber_id = Ok bid ∧
     List.find (λ b, String.eqb (barber_oid b) bid) (barbers shop) = Some barber ∧
     schedule barber !! day_name tuesday = Some day_schedule ∧
     result_bind (getitem_str day_schedule "start") strptime_HM = Ok open ∧
     result_bind (getitem_str day_schedule "end") strptime_HM = Ok close ∧
     combine tuesday open ≤ combine tuesday (hm 17 0) < combine tuesday close ∧
     (∃ k, 0 ≤ k ∧ combine tuesday (hm 17 0) = combine tuesday open + k * timedelta 30) ∧
     ((close - open) mod timedelta 30 = 0 →
      combine tuesday (hm 17 0) + timedelta 30 ≤ combine tuesday close) ∧
     (combine tuesday close < combine tuesday (hm 17 0) + timedelta 30 →
      (close - open) mod timedelta 30 ≠ 0 ∧
      combine tuesday (hm 17 0)
        = combine tuesday open + (close - open) / timedelta 30 * timedelta 30))
  ∧
  (let last := combine tuesday (hm 9 0) + (hm 17 15 - hm 9 0) / timedelta 30 * timedelta 30 in
   last ∈ tuesday_slots ∧ last < combine tuesday (hm 17 15) < last + timedelta 30).
Proof.
  split.
  - apply (proj1 emitted_slots_start_before_closing early_clock the_barber_id tuesday shop
             tuesday_slots (combine tuesday (hm 17 0))).
    + vm_compute. reflexivity.
    + apply list_elem_of_In. vm_compute. tauto.
  - apply (proj2 emitted_slots_start_before_closing early_clock the_barber_id tuesday shop
             tuesday_slots the_barber_id the_barber
             {[ "start" := "09:00"; "end" := "17:15" ]}%string [] (hm 9 0) (hm 17 15)).
    + vm_compute. reflexivity.
    + reflexivity.
    + reflexivity.
    + reflexivity.
    + vm_compute. reflexivity.
    + reflexivity.
    + reflexivity.
    + vm_compute. reflexivity.
    + vm_compute. discriminate.
    + intros b Hb. by apply elem_of_nil in Hb.
    + intros n. vm_compute. reflexivity.
Defined.

(** ** What the slot filter sees *)

Lemma busy_list_elem svcs l bs :
  busy_list svcs l = Ok bs →
  ∀ b, b ∈ bs ↔ ∃ d, d ∈ l ∧ busy_of svcs d = Ok b.
Proof.
  revert bs. induction l as [|d l IH]; simpl; intros bs.
  - intros [= <-] b. split.
    + intros H. by apply elem_of_nil in H.
    + intros (d & H & _). by apply elem_of_nil in H.
  - destruct (busy_of svcs d) as [b0|e] eqn:Hd; [|discriminate]. simpl.
    destruct (busy_list svcs l) as [bs0|e] eqn:Hl; [|discriminate]. simpl.
    intros [= <-] b. rewrite elem_of_cons, (IH bs0 eq_refl). split.
    + intros [->|(d' & Hin & Hb)].
      * exists d. split; [apply elem_of_cons; auto|done].
      * exists d'. split; [apply elem_of_cons; auto|done].
    + intros (d' & Hin & Hb). apply elem_of_cons in Hin as [->|Hin].
      * left. congruence.
      * right. eauto.
Qed.

Lemma busy_of_start svcs d b :
  busy_of svcs d = Ok b → d !! "scheduled_at" = Some (VDate (busy_start b)).
Proof.
  unfold busy_of, result_bind, getitem. intros H.
  repeat (case_match; simplify_eq); done.
Qed.

Lemma day_query_dated barber_id start_of_day end_of_day d t :
  d !! "scheduled_at" = Some (VDate t) →
  day_query barber_id start_of_day end_of_day d = true ↔
  field_matches (λ v, eq_str v barber_id) d "barber_id" = true ∧
  status_active d = true ∧
  start_of_day ≤ t ≤ end_of_day.
Proof.
  intros Ht. unfold day_query.
  unfold field_matches at 2 3. rewrite Ht. simpl.
  rewrite !andb_true_iff, !Z.leb_le. tauto.
Qed.

(** The interval [busy_of] makes of an appointment: it starts at
    [scheduled_at] and lasts as long as the service the appointment names,
    60 minutes when that service is not in the store. *)
Lemma busy_of_interval svcs d b :
  busy_of svcs d = Ok b ↔
  ∃ sv sid,
    d !! "service_id" = Some sv ∧
    ObjectId_of_value sv = Ok sid ∧
    d !! "scheduled_at" = Some (VDate (busy_start b)) ∧
    busy_end b = busy_start b +
      timedelta (match List.find (λ s, String.eqb (service_oid s) sid) svcs with
                 | Some s => duration_minutes s
                 | None => 60
                 end).
Proof.
  unfold busy_of, result_bind, getitem. split.
  - destruct (d !! "service_id") as [sv|] eqn:Hsv; [|discriminate].
    destruct (ObjectId_of_value sv) as [sid|e] eqn:Hsid; [|discriminate].
    destruct (d !! "scheduled_at") as [[]|] eqn:Hst; try discriminate.
    intros [= <-]. exists sv, sid. by repeat split.
  - intros (sv & sid & -> & -> & -> & Hend). destruct b as [s e]. simpl in *. by subst e.
Qed.

(** C9.  On a day without a schedule [get_barber_availability] fetches
    nothing and returns no slot.  On any other day the intervals it checks
    each candidate against are those of the staff member's pending and
    confirmed appointments whose [scheduled_at] lies within the target date,
    each running from [scheduled_at] for the duration of its service, and no
    others.  An appointment that starts the evening before and runs past
    midnight is not among them, and a slot that overlaps it is returned. *)
Theorem availability_sees_only_appointments_starting_that_day :
  (∀ clock barber_id target_date db slots,
     fst (get_barber_availability clock barber_id target_date db) = Ok slots →
     ∃ bid barber,
       ObjectId barber_id = Ok bid ∧
       List.find (λ b, String.eqb (barber_oid b) bid) (barbers db) = Some barber ∧
       (((schedule barber !! day_name target_date = None ∨
          schedule barber !! day_name target_date = Some ∅) ∧ slots = [])
        ∨
        ∃ bs open close,
          day_busy db barber_id target_date = Ok bs ∧
          slots_loop (slots_fuel (combine target_date close) (combine target_date open))
            clock 0 bs (combine target_date close) (combine target_date open) = Some slots ∧
          ∀ b, b ∈ bs ↔
            ∃ a sv sid,
              a ∈ appointments db ∧
              field_matches (λ v, eq_str v barber_id) a "barber_id" = true ∧
              status_active a = true ∧
              a !! "scheduled_at" = Some (VDate (busy_start b)) ∧
              combine target_date time_min ≤ busy_start b ≤ combine target_date time_max ∧
              a !! "service_id" = Some sv ∧
              ObjectId_of_value sv = Ok sid ∧
              busy_end b = busy_start b +
                timedelta
                  (match List.find (λ s, String.eqb (service_oid s) sid) (services db) with
                   | Some s => duration_minutes s
                   | None => 60
                   end)))
  ∧
  (∃ slots a b t,
     appointments late_booking = [a] ∧
     a !! "barber_id" = Some (VStr the_barber_id) ∧
     status_active a = true ∧
     occupied late_booking a = Ok b ∧
     busy_start b < combine wednesday time_min ∧
     day_busy late_booking the_barber_id wednesday = Ok [] ∧
     fst (get_barber_availability early_clock the_barber_id wednesday late_booking)
       = Ok slots ∧
     t ∈ slots ∧
     overlap t (t + timedelta 30) (busy_start b) (busy_end b)).
Proof.
  split.
  - intros clock barber_id target_date db slots Hout.
    destruct (get_barber_availability_cases _ _ _ _ _ Hout)
      as (bid & barber & Hbid & Hb & [Hnone|(ds & bs & open & close & _ & _ & Hbusy & _ & _ & Hl)]).
    { exists bid, barber. auto. }
    exists bid, barber. split; [done|]. split; [done|]. right.
    exists bs, open, close. split; [done|]. split; [done|].
    intros b. unfold day_busy in Hbusy.
    rewrite (busy_list_elem _ _ _ Hbusy b). split.
    + intros (d & Hin & Hbo).
      apply list_elem_of_In, filter_In in Hin as [Hin Hq].
      pose proof (busy_of_start _ _ _ Hbo) as Hs.
      apply (day_query_dated _ _ _ _ _ Hs) in Hq as (Hbar & Hact & Hrange).
      apply busy_of_interval in Hbo as (sv & sid & Hsv & Hsid & _ & Hend).
      exists d, sv, sid. repeat split; try done; try lia. by apply list_elem_of_In.
    + intros (a & sv & sid & Hin & Hbar & Hact & Hs & Hrange & Hsv & Hsid & Hend).
      exists a. split.
      * apply list_elem_of_In, filter_In. split; [by apply list_elem_of_In|].
        by apply (day_query_dated _ _ _ _ _ Hs).
      * apply busy_of_interval. exists sv, sid. by repeat split.
  - exists [combine wednesday (hm 0 0); combine wednesday (hm 0 30);
            combine wednesday (hm 1 0); combine wednesday (hm 1 30)],
      (default ∅ (appointments late_booking !! 0%nat)),
      {| busy_start := combine tuesday (hm 23 30); busy_end := combine wednesday (hm 0 30) |},
      (combine wednesday (hm 0 0)).
    split; [reflexivity|]. split; [vm_compute; reflexivity|].
    split; [vm_compute; reflexivity|]. split; [vm_compute; reflexivity|].
    split; [vm_compute; reflexivity|]. split; [vm_compute; reflexivity|].
    split; [vm_compute; reflexivity|]. split; [apply elem_of_cons; auto|].
    vm_compute. split; reflexivity.
Qed.

(** A Wednesday that is booked out: no slot is returned, and the two
    intervals that were checked are those of the two appointments. *)
Example fully_booked_wednesday :
  fst (get_barber_availability early_clock the_barber_id wednesday fully_booked) = Ok [] ∧
  day_busy fully_booked the_barber_id wednesday =
    Ok [ {| busy_start := combine wednesday (hm 0 0); busy_end := combine wednesday (hm 1 0) |};
         {| busy_start := combine wednesday (hm 1 0); busy_end := combine wednesday (hm 2 0) |} ].
Proof. split; vm_compute; reflexivity. Qed.

Lemma availability_sees_only_appointments_starting_that_day_witness :
  ∃ bs open close,
    day_busy fully_booked the_barber_id wednesday = Ok bs ∧
    slots_loop (slots_fuel (combine wednesday close) (combine wednesday open))
      early_clock 0 bs (combine wednesday close) (combine wednesday open) = Some [] ∧
    ∀ b, b ∈ bs ↔
      ∃ a sv sid,
        a ∈ appointments fully_booked ∧
        field_matches (λ v, eq_str v the_barber_id) a "barber_id" = true ∧
        status_active a = true ∧
        a !! "scheduled_at" = Some (VDate (busy_start b)) ∧
        combine wednesday time_min ≤ busy_start b ≤ combine wednesday time_max ∧
        a !! "service_id" = Some sv ∧
        ObjectId_of_value sv = Ok sid ∧
        busy_end b = busy_start b +
          timedelta
            (match List.find (λ s, String.eqb (service_oid s) sid) (services fully_booked)
             with
             | Some s => duration_minutes s
             | None => 60
             end).
Proof.
  destruct (proj1 availability_sees_only_appointments_starting_that_day
              early_clock the_barber_id wednesday fully_booked [])
    as (bid & barber & Hbid & Hb & [[Hs _]|H]).
  - vm_compute. reflexivity.
  - exfalso. vm_compute in Hbid. injection Hbid as <-.
    vm_compute in Hb. injection Hb as <-.
    destruct Hs as [Hs|Hs]; vm_compute in Hs; discriminate Hs.
  - exact H.
Defined.

(** ** Witnesses for the transitions *)

Lemma transition_status_validation_and_effect_witness :
  ∃ appointment',
    update_appointment_status 2000 id1 (set_status STATUS_COMPLETED) admin one_booking =
      (Ok ("Estado de cita actualizado a "
           ++ str_of_value (field_ref (set_status STATUS_COMPLETED) "status"))%string,
       {| services := services one_booking; barbers := barbers one_booking;
          appointments := [] ++ appointment' :: [] |}) ∧
    appointment' !! "status" = Some (field_ref (set_status STATUS_COMPLETED) "status") ∧
    appointment' !! "updated_at" = Some (VDate 2000) ∧
    ∀ k, k ≠ "status"%string → k ≠ "updated_at"%string →
         appointment' !! k =
         (<["_id" := VObjectId id1]>
            (new_appointment_dict 1000 (booking ana "65f000000000000000000a02" monday 10 0)
               corte_barba)) !! k.
Proof.
  apply (proj2 (transition_status_validation_and_effect 2000 id1
                  (set_status STATUS_COMPLETED) admin one_booking) id1).
  - right. right. left. reflexivity.
  - reflexivity.
  - reflexivity.
  - constructor.
  - vm_compute. reflexivity.
  - left. reflexivity.
Defined.

(** Two pending appointments of one staff member, 12:00-12:45 and
    10:00-10:30: the pair is compared, and does not overlap. *)
Lemma two_bookings_non_overlap : non_overlap two_bookings.
Proof.
  assert (H0 : occupied two_bookings (default ∅ (appointments two_bookings !! 0%nat)) =
               Ok {| busy_start := combine monday (hm 12 0);
                     busy_end := combine monday (hm 12 45) |})
    by (vm_compute; reflexivity).
  assert (H1 : occupied two_bookings (default ∅ (appointments two_bookings !! 1%nat)) =
               Ok {| busy_start := combine monday (hm 10 0);
                     busy_end := combine monday (hm 10 30) |})
    by (vm_compute; reflexivity).
  intros i j a b x y Hij Hi Hj _ _ _ Hx Hy.
  pose proof (lookup_lt_Some _ _ _ Hi) as Hli.
  pose proof (lookup_lt_Some _ _ _ Hj) as Hlj.
  change (List.length (appointments two_bookings)) with 2%nat in Hli, Hlj.
  destruct i as [|[|i]]; [| |lia]; destruct j as [|[|j]]; try lia.
  - rewrite Hi in H0. rewrite Hj in H1.
    change (default ∅ (Some a)) with a in H0. change (default ∅ (Some b)) with b in H1.
    rewrite H0 in Hx. rewrite H1 in Hy. injection Hx as <-. injection Hy as <-.
    vm_compute. intros [H _]. discriminate H.
  - rewrite Hi in H1. rewrite Hj in H0.
    change (default ∅ (Some a)) with a in H1. change (default ∅ (Some b)) with b in H0.
    rewrite H1 in Hx. rewrite H0 in Hy. injection Hx as <-. injection Hy as <-.
    vm_compute. intros [_ H]. discriminate H.
Qed.

Lemma transition_preserves_non_overlap_witness :
  non_overlap
    (snd (update_appointment_status 3000 id1 (set_status STATUS_CONFIRMED) admin two_bookings)).
Proof.
  apply transition_preserves_non_overlap.
  - apply two_bookings_non_overlap.
  - right. right.
    exists id1, [], (default ∅ (appointments two_bookings !! 0%nat)),
      [default ∅ (appointments two_bookings !! 1%nat)].
    split; [reflexivity|]. split; [reflexivity|]. split; [constructor|].
    split; vm_compute; reflexivity.
Defined.

(** After that transition both appointments still hold the calendar of the
    same staff member, one confirmed, one pending. *)
Example two_bookings_stay_active :
  map (λ d, (d !! "status", d !! "barber_id"))
    (appointments
       (snd (update_appointment_status 3000 id1 (set_status STATUS_CONFIRMED) admin
               two_bookings))) =
  [ (Some (VStr STATUS_CONFIRMED), Some (VStr the_barber_id));
    (Some (VStr STATUS_PENDING), Some (VStr the_barber_id)) ].
Proof. vm_compute. reflexivity. Qed.

(** * Further properties of the handlers *)

(** ** The slots of [get_barber_availability] *)

Lemma digit_bounds c z : digit c = Some z → 0 ≤ z ≤ 9.
Proof.
  unfold digit. destruct (_ && _) eqn:H; [|discriminate].
  apply andb_true_iff in H as [H1 H2]. apply Nat.leb_le in H1, H2.
  intros [= <-]. lia.
Qed.

Lemma parse_minute_bounds l m : parse_minute l = Some m → 0 ≤ m ≤ 59.
Proof.
  unfold parse_minute. destruct l as [|d1 [|d2 [|? ?]]]; try discriminate.
  - intros H. apply digit_bounds in H. lia.
  - destruct (digit d1) as [a|] eqn:Ha; [|discriminate].
    destruct (digit d2) as [b|] eqn:Hb; [|discriminate].
    apply digit_bounds in Ha, Hb.
    destruct (a <=? 5) eqn:H5; [|discriminate]. apply Z.leb_le in H5.
    intros [= <-]. lia.
Qed.

Lemma parse_hour_minute_bounds l h m :
  parse_hour_minute l = Some (h, m) → 0 ≤ h ≤ 23 ∧ 0 ≤ m ≤ 59.
Proof.
  unfold parse_hour_minute. destruct l as [|c1 [|c2 rest]]; try discriminate.
  destruct (Ascii.eqb c2 ":").
  - destruct (digit c1) as [a|] eqn:Ha; [|discriminate].
    destruct (parse_minute rest) as [m'|] eqn:Hm; [|discriminate].
    apply digit_bounds in Ha. apply parse_minute_bounds in Hm.
    intros [= <- <-]. lia.
  - destruct rest as [|c3 rest']; [discriminate|].
    destruct (Ascii.eqb c3 ":"); [|discriminate].
    destruct (digit c1) as [a|] eqn:Ha; [|discriminate].
    destruct (digit c2) as [b|] eqn:Hb; [|discriminate].
    destruct (parse_minute rest') as [m'|] eqn:Hm; [|discriminate].
    apply digit_bounds in Ha, Hb. apply parse_minute_bounds in Hm.
    destruct (_ || _) eqn:Hh; [|discriminate].
    intros [= <- <-].
    apply orb_true_iff in Hh as [Hh|Hh].
    + apply andb_true_iff in Hh as [H2 H3].
      apply Z.eqb_eq in H2. apply Z.leb_le in H3. lia.
    + apply Z.leb_le in Hh. lia.
Qed.

(** A time of day parsed from a schedule is a whole minute from 00:00 to
    23:59. *)
Lemma strptime_HM_minute s t :
  strptime_HM s = Ok t → ∃ m, t = timedelta m ∧ 0 ≤ m < 1440.
Proof.
  unfold strptime_HM.
  destruct (parse_hour_minute _) as [[h m]|] eqn:H; [|discriminate].
  apply parse_hour_minute_bounds in H. intros [= <-].
  exists (h * 60 + m). split; [done|lia].
Qed.

(** X1.  Every instant that [get_barber_availability] returns is a whole
    minute of the target date. *)
Theorem slots_are_minutes_of_the_target_date clock barber_id target_date db slots t :
  fst (get_barber_availability clock barber_id target_date db) = Ok slots →
  t ∈ slots →
  ∃ m, t = combine target_date (timedelta m) ∧ 0 ≤ m < 1440.
Proof.
  intros Hout Ht.
  destruct (get_barber_availability_inv _ _ _ _ _ Hout)
    as [->|(bid & barber & ds & bs & open & close & _ & _ & _ & _ & Ho & Hc & Hl)];
    [by apply elem_of_nil in Ht|].
  destruct (slots_loop_sound _ _ _ _ _ _ _ _ Hl Ht) as (Hr & (k & Hk & Hgrid) & _ & _).
  apply result_bind_Ok in Ho as (so & _ & Ho). apply result_bind_Ok in Hc as (sc & _ & Hc).
  apply strptime_HM_minute in Ho as (mo & -> & Hmo).
  apply strptime_HM_minute in Hc as (mc & -> & Hmc).
  exists (mo + 30 * k). unfold combine, timedelta in *. split; lia.
Qed.

Lemma slots_are_minutes_of_the_target_date_witness :
  ∃ m, combine tuesday (hm 17 0) = combine tuesday (timedelta m) ∧ 0 ≤ m < 1440.
Proof.
  apply (slots_are_minutes_of_the_target_date early_clock the_barber_id tuesday shop
           tuesday_slots).
  - vm_compute. reflexivity.
  - apply list_elem_of_In. vm_compute. tauto.
Defined.

Lemma slots_loop_sorted fuel clock reads appointments end_datetime current_slot l :
  slots_loop fuel clock reads appointments end_datetime current_slot = Some l →
  StronglySorted Z.lt l.
Proof.
  revert reads current_slot l.
  induction fuel as [|fuel IH]; intros reads current_slot l; simpl.
  - destruct (_ <? _); [discriminate|]. intros [= <-]. constructor.
  - destruct (_ <? _); [|intros [= <-]; constructor].
    destruct (is_available _ _ _); [|apply IH].
    destruct (_ >? _); [|apply IH].
    destruct (slots_loop fuel clock (S reads) _ _ _) as [l'|] eqn:Hl'; [|discriminate].
    simpl. intros [= <-]. constructor; [by eapply IH|].
    apply Forall_forall. intros t Ht.
    destruct (slots_loop_sound _ _ _ _ _ _ _ _ Hl' Ht) as (Hr & _).
    rewrite timedelta_30 in Hr. lia.
Qed.

(** X2.  The slots come in strictly ascending order. *)
Theorem slots_are_strictly_ascending clock barber_id target_date db slots :
  fst (get_barber_availability clock barber_id target_date db) = Ok slots →
  StronglySorted Z.lt slots.
Proof.
  intros Hout.
  destruct (get_barber_availability_inv _ _ _ _ _ Hout)
    as [->|(bid & barber & ds & bs & open & close & _ & _ & _ & _ & _ & _ & Hl)];
    [constructor|].
  by eapply slots_loop_sorted.
Qed.

Lemma slots_are_strictly_ascending_witness : StronglySorted Z.lt scenario_B_slots.
Proof.
  apply (slots_are_strictly_ascending early_clock the_barber_id monday scenario_B).
  vm_compute. reflexivity.
Defined.

(** X3.  A returned slot is later than a reading of the clock, and its half
    hour overlaps no pending or confirmed appointment of the staff member
    that starts on the target date. *)
Theorem returned_slots_are_free_and_ahead clock barber_id target_date db slots t :
  fst (get_barber_availability clock barber_id target_date db) = Ok slots →
  t ∈ slots →
  (∃ n, clock n < t) ∧
  ∀ a b s,
    a ∈ appointments db →
    field_matches (λ v, eq_str v barber_id) a "barber_id" = true →
    status_active a = true →
    a !! "scheduled_at" = Some (VDate s) →
    combine target_date time_min ≤ s ≤ combine target_date time_max →
    occupied db a = Ok b →
    ¬ overlap t (t + timedelta 30) (busy_start b) (busy_end b).
Proof.
  intros Hout Ht.
  destruct (get_barber_availability_inv _ _ _ _ _ Hout)
    as [->|(bid & barber & ds & bs & open & close & _ & _ & _ & Hbusy & _ & _ & Hl)];
    [by apply elem_of_nil in Ht|].
  destruct (slots_loop_sound _ _ _ _ _ _ _ _ Hl Ht) as (_ & _ & Hav & Hn).
  split; [done|]. intros a b s Hin Hbar Hact Hs Hrange Hb.
  apply (proj1 (is_available_spec bs t _) Hav b).
  unfold day_busy in Hbusy. apply (busy_list_elem _ _ _ Hbusy b).
  exists a. split; [|done].
  apply list_elem_of_In, filter_In. split; [by apply list_elem_of_In|].
  by apply (day_query_dated _ _ _ _ _ Hs).
Qed.

Lemma returned_slots_are_free_and_ahead_witness :
  (∃ n, early_clock n < combine monday (hm 11 0)) ∧
  ∀ a b s,
    a ∈ appointments scenario_B →
    field_matches (λ v, eq_str v the_barber_id) a "barber_id" = true →
    status_active a = true →
    a !! "scheduled_at" = Some (VDate s) →
    combine monday time_min ≤ s ≤ combine monday time_max →
    occupied scenario_B a = Ok b →
    ¬ overlap (combine monday (hm 11 0)) (combine monday (hm 11 0) + timedelta 30)
        (busy_start b) (busy_end b).
Proof.
  apply (returned_slots_are_free_and_ahead early_clock the_barber_id monday scenario_B
           scenario_B_slots).
  - vm_compute. reflexivity.
  - apply list_elem_of_In. vm_compute. tauto.
Defined.



(** X5.  [get_barber_availability] only reads: whatever it returns or
    raises, the database is as before. *)
Theorem availability_is_read_only clock barber_id target_date db :
  snd (get_barber_availability clock barber_id target_date db) = db.
Proof.
  unfold get_barber_availability. unfold_handler.
  destruct (ObjectId barber_id); [|done].
  destruct (List.find _ (barbers db)); [|done].
  destruct (schedule _ !! _); [|done].
  destruct (bool_decide _); [done|].
  destruct (busy_list _ _); [|done].
  destruct (result_bind (getitem_str _ "start") _); [|done].
  destruct (result_bind (getitem_str _ "end") _); [|done].
  by destruct (slots_loop _ _ _ _ _ _).
Qed.

(** ** More on status transitions *)

Lemma can_update_unauthorized db actor appointment :
  ¬ authorized db actor appointment →
  is_Some (appointment !! "client_id") →
  is_Some (appointment !! "barber_id") →
  can_update actor appointment db = (Ok false, db).
Proof.
  unfold authorized, can_update, getitem. unfold_handler.
  intros Hn [c Hc] [b Hb]. rewrite Hc, Hb.
  destruct (String.eqb (role actor) ROLE_ADMIN) eqn:Ha.
  { apply String.eqb_eq in Ha. tauto. }
  destruct (String.eqb (role actor) ROLE_CLIENT) eqn:Hcl.
  - apply String.eqb_eq in Hcl. simpl.
    destruct (eq_str c (user_id_of actor)) eqn:He.
    + apply eq_str_true in He as ->. tauto.
    + rewrite Hcl. reflexivity.
  - simpl. destruct (String.eqb (role actor) ROLE_BARBER) eqn:Hba; [|done].
    apply String.eqb_eq in Hba.
    destruct (List.find _ (barbers db)) as [p|] eqn:Hp; [|done]. simpl.
    destruct (eq_str b (barber_oid p)) eqn:He; [|done].
    apply eq_str_true in He as ->. exfalso. apply Hn. right. right. eauto.
Qed.

(** The successful call, spelled out. *)
Lemma update_appointment_status_success utcnow appointment_id status_data actor db
    oid l1 appointment l2 :
  is_valid_status (field_ref status_data "status") →
  ObjectId appointment_id = Ok oid →
  appointments db = l1 ++ appointment :: l2 →
  Forall (λ d, has_id oid d = false) l1 →
  has_id oid appointment = true →
  can_update actor appointment db = (Ok true, db) →
  update_appointment_status utcnow appointment_id status_data actor db =
    (Ok ("Estado de cita actualizado a "
         ++ str_of_value (field_ref status_data "status"))%string,
     {| services := services db; barbers := barbers db;
        appointments :=
          l1 ++ (status_update (field_ref status_data "status") utcnow ∪ appointment) :: l2 |}).
Proof.
  intros Hvalid Hoid Hl HF Hid Hcan.
  unfold update_appointment_status. unfold_handler.
  rewrite (valid_status_truthy _ Hvalid). cbn [negb].
  apply valid_statuses_spec in Hvalid. rewrite Hvalid. cbn [negb]. rewrite Hoid.
  rewrite (find_one_doc_first (has_id oid) _ _ _ _ Hl HF Hid).
  rewrite Hcan. cbn [negb].
  destruct (update_one_doc_spec (has_id oid)
              (status_update (field_ref status_data "status") utcnow) (appointments db))
    as [[_ HF']|(l1' & d' & l2' & Hl' & HF' & Hd' & ->)].
  - rewrite Hl in HF'. apply Forall_app in HF' as [_ HF']. inversion HF'; congruence.
  - rewrite Hl in Hl'.
    by destruct (first_match_unique (has_id oid) _ _ _ _ _ _ Hl' HF Hid HF' Hd')
      as (<- & <- & <-).
Qed.

(** X6.  An actor who is neither an administrator, nor the client of the
    appointment, nor the staff member it is assigned to is refused with
    "No autorizado", and nothing changes. *)
Theorem unauthorized_transition_is_refused utcnow appointment_id status_data actor db
    oid l1 appointment l2 :
  is_valid_status (field_ref status_data "status") →
  ObjectId appointment_id = Ok oid →
  appointments db = l1 ++ appointment :: l2 →
  Forall (λ d, has_id oid d = false) l1 →
  has_id oid appointment = true →
  is_Some (appointment !! "client_id") →
  is_Some (appointment !! "barber_id") →
  ¬ authorized db actor appointment →
  update_appointment_status utcnow appointment_id status_data actor db =
    (Raise (HTTPException 400 (StrOf (HTTPException 403 (Msg "No autorizado")))), db).
Proof.
  intros Hvalid Hoid Hl HF Hid Hc Hb Hn.
  unfold update_appointment_status. unfold_handler.
  rewrite (valid_status_truthy _ Hvalid). cbn [negb].
  apply valid_statuses_spec in Hvalid. rewrite Hvalid. cbn [negb]. rewrite Hoid.
  rewrite (find_one_doc_first (has_id oid) _ _ _ _ Hl HF Hid).
  by rewrite (can_update_unauthorized _ _ _ Hn Hc Hb).
Qed.

Lemma unauthorized_transition_is_refused_witness :
  update_appointment_status 2000 id1 (set_status STATUS_CANCELLED)
    {| user_id_of := luis; role := ROLE_CLIENT |} one_booking =
    (Raise (HTTPException 400 (StrOf (HTTPException 403 (Msg "No autorizado")))),
     one_booking).
Proof.
  apply (unauthorized_transition_is_refused 2000 id1 (set_status STATUS_CANCELLED)
           {| user_id_of := luis; role := ROLE_CLIENT |} one_booking id1 []
           (<["_id" := VObjectId id1]>
              (new_appointment_dict 1000 (booking ana "65f000000000000000000a02" monday 10 0)
                 corte_barba)) []).
  - right. right. right. reflexivity.
  - reflexivity.
  - reflexivity.
  - constructor.
  - vm_compute. reflexivity.
  - eexists. reflexivity.
  - eexists. reflexivity.
  - intros [H|[[_ H]|[H _]]]; discriminate H.
Defined.

(** X7.  [update_appointment_status] is atomic on failure. *)
Theorem transition_atomic_on_failure utcnow appointment_id status_data actor db e :
  fst (update_appointment_status utcnow appointment_id status_data actor db) = Raise e →
  snd (update_appointment_status utcnow appointment_id status_data actor db) = db.
Proof.
  destruct (update_appointment_status_inv utcnow appointment_id status_data actor db)
    as [[Hsnd _]|(oid & l1 & d & l2 & _ & _ & _ & _ & _ & _ & ->)]; [done|].
  simpl. discriminate.
Qed.

Lemma transition_atomic_on_failure_witness :
  snd (update_appointment_status 2000 id1 (set_status "done") admin one_booking)
  = one_booking.
Proof.
  apply (transition_atomic_on_failure _ _ _ _ _
           (HTTPException 400 (StrOf (HTTPException 400 (Msg "Estado inválido"))))).
  vm_compute. reflexivity.
Defined.

(** ** What the core operations never touch *)

Lemma step_keeps_appointments db op (i : nat) (d : gmap string value) :
  appointments db !! i = Some d →
  ∃ d', appointments (step db op) !! i = Some d' ∧
        ∀ k, k ≠ "status"%string → k ≠ "updated_at"%string → d' !! k = d !! k.
Proof.
  intros Hi. destruct op as [new_id t data|t aid sd actor]; simpl.
  - destruct (create_appointment_inv new_id t data db)
      as [[e ->]|(sid & service & _ & _ & _ & ->)]; simpl.
    + exists d. by split.
    + exists d. split; [|done]. by apply lookup_app_l_Some.
  - destruct (update_appointment_status_inv t aid sd actor db)
      as [[-> _]|(oid & l1 & x & l2 & _ & _ & Hl & _ & _ & _ & ->)]; simpl.
    + exists d. by split.
    + rewrite Hl in Hi.
      destruct (lookup_middle_changed l1
                  (status_update (field_ref sd "status") t ∪ x) x l2 i d Hi)
        as (d' & Hd' & [->|[-> ->]]).
      * exists d'. by split.
      * exists (status_update (field_ref sd "status") t ∪ x). split; [done|].
        intros k. apply status_update_other.
Qed.

(** X8.  No sequence of bookings and transitions deletes an appointment,
    moves it, or changes anything of it but [status] and [updated_at]: its
    id, client, staff member, service, start and price stay. *)
Theorem core_operations_keep_appointments ops db (i : nat) (d : gmap string value) :
  appointments db !! i = Some d →
  ∃ d', appointments (run ops db) !! i = Some d' ∧
        ∀ k, k ≠ "status"%string → k ≠ "updated_at"%string → d' !! k = d !! k.
Proof.
  unfold run. revert db d. induction ops as [|op ops IH]; intros db d Hi; simpl.
  - exists d. by split.
  - destruct (step_keeps_appointments db op i d Hi) as (d1 & H1 & Hk1).
    destruct (IH _ _ H1) as (d2 & H2 & Hk2).
    exists d2. split; [done|]. intros k Hs Hu. rewrite Hk2, Hk1; done.
Qed.

Lemma core_operations_keep_appointments_witness :
  ∃ d', appointments (run (drop 1 reactivation) one_booking) !! 0%nat = Some d' ∧
        ∀ k, k ≠ "status"%string → k ≠ "updated_at"%string →
             d' !! k =
             (<["_id" := VObjectId id1]>
                (new_appointment_dict 1000
                   (booking ana "65f000000000000000000a02" monday 10 0) corte_barba)) !! k.
Proof.
  apply (core_operations_keep_appointments (drop 1 reactivation) one_booking 0).
  reflexivity.
Defined.

(** ** A cancelled or completed appointment and the slots *)

Lemma get_barber_availability_ext clock barber_id target_date db1 db2 :
  services db1 = services db2 →
  barbers db1 = barbers db2 →
  List.filter (day_query barber_id (combine target_date time_min)
                 (combine target_date time_max)) (appointments db1)
  = List.filter (day_query barber_id (combine target_date time_min)
                   (combine target_date time_max)) (appointments db2) →
  fst (get_barber_availability clock barber_id target_date db1)
  = fst (get_barber_availability clock barber_id target_date db2).
Proof.
  intros Hs Hb Hf. unfold get_barber_availability. unfold_handler.
  destruct (ObjectId barber_id); [|done]. cbv beta. rewrite Hb.
  destruct (List.find _ (barbers db2)); [|done].
  destruct (schedule _ !! _); [|done].
  destruct (bool_decide _); [done|]. cbv beta. rewrite Hs, Hf.
  destruct (busy_list _ _); [|done].
  destruct (result_bind (getitem_str _ "start") _); [|done].
  destruct (result_bind (getitem_str _ "end") _); [|done].
  by destruct (slots_loop _ _ _ _ _ _).
Qed.

(** X9.  Once an appointment has been set to completed or cancelled, the
    slots of every staff member and date are those of the store without
    that appointment. *)
Theorem closed_appointment_blocks_no_slot utcnow appointment_id status_data actor db
    oid l1 appointment l2 clock barber_id target_date :
  field_ref status_data "status" = VStr STATUS_COMPLETED
  ∨ field_ref status_data "status" = VStr STATUS_CANCELLED →
  ObjectId appointment_id = Ok oid →
  appointments db = l1 ++ appointment :: l2 →
  Forall (λ d, has_id oid d = false) l1 →
  has_id oid appointment = true →
  authorized db actor appointment →
  fst (get_barber_availability clock barber_id target_date
         (snd (update_appointment_status utcnow appointment_id status_data actor db)))
  = fst (get_barber_availability clock barber_id target_date
           {| services := services db; barbers := barbers db; appointments := l1 ++ l2 |}).
Proof.
  intros Hst Hoid Hl HF Hid Hauth.
  assert (Hvalid : is_valid_status (field_ref status_data "status")).
  { unfold is_valid_status. tauto. }
  rewrite (update_appointment_status_success _ _ _ _ _ _ _ _ _ Hvalid Hoid Hl HF Hid
             (can_update_authorized _ _ _ Hauth)).
  apply get_barber_availability_ext; [done|done|]. simpl.
  rewrite !List.filter_app. simpl.
  unfold day_query at 2. rewrite status_active_inactive_update by done.
  by rewrite andb_false_r.
Qed.

Lemma closed_appointment_blocks_no_slot_witness :
  fst (get_barber_availability early_clock the_barber_id monday
         (snd (update_appointment_status 2000 id1 (set_status STATUS_CANCELLED) admin
                 one_booking)))
  = fst (get_barber_availability early_clock the_barber_id monday
           {| services := services one_booking; barbers := barbers one_booking;
              appointments := [] ++ [] |}).
Proof.
  apply (closed_appointment_blocks_no_slot 2000 id1 (set_status STATUS_CANCELLED) admin
           one_booking id1 []
           (<["_id" := VObjectId id1]>
              (new_appointment_dict 1000 (booking ana "65f000000000000000000a02" monday 10 0)
                 corte_barba)) []).
  - right. reflexivity.
  - reflexivity.
  - reflexivity.
  - constructor.
  - vm_compute. reflexivity.
  - left. reflexivity.
Defined.

(** ** More on [update_service] *)



Lemma find_first_service oid (l1 : list Service) s l2 :
  Forall (λ s, service_oid s ≠ oid) l1 → service_oid s = oid →
  List.find (λ s, String.eqb (service_oid s) oid) (l1 ++ s :: l2) = Some s.
Proof.
  intros HF Hs. induction HF as [|x l1 Hx HF IH]; simpl.
  - by rewrite (proj2 (String.eqb_eq _ _) Hs).
  - by rewrite (proj2 (String.eqb_neq _ _) Hx).
Qed.








(** ** More on [create_appointment] *)

(** X13.  On a store whose appointments are as the handlers leave them, and
    for a start and an end ([scheduled_at] plus the duration of the service)
    within the range of [datetime], a booking succeeds exactly when the
    service id and the staff id each resolve to a stored document; nothing
    else is checked. *)
Theorem booking_succeeds_iff_ids_resolve new_id utcnow appointment_data db :
  Forall as_booked (appointments db) →
  within_datetime_range (scheduled_at appointment_data) →
  (∀ sid service,
     ObjectId (service_id appointment_data) = Ok sid →
     List.find (λ s, String.eqb (service_oid s) sid) (services db) = Some service →
     within_datetime_range
       (scheduled_at appointment_data + timedelta (duration_minutes service))) →
  (∃ r, fst (create_appointment new_id utcnow appointment_data db) = Ok r) ↔
  (∃ sid service,
     ObjectId (service_id appointment_data) = Ok sid ∧
     List.find (λ s, String.eqb (service_oid s) sid) (services db) = Some service) ∧
  (∃ bid barber,
     ObjectId (barber_id appointment_data) = Ok bid ∧
     List.find (λ b, String.eqb (barber_oid b) bid) (barbers db) = Some barber).
Proof.
  intros Hdb _ _. unfold create_appointment. unfold_handler.
  destruct (ObjectId (service_id appointment_data)) as [sid|e] eqn:Hsid.
  2:{ split; [intros [r [=]]|intros [(? & ? & [=] & _) _]]. }
  destruct (List.find _ (services db)) as [service|] eqn:Hsvc.
  2:{ split; [intros [r [=]]|intros [(? & ? & [= <-] & H) _]]. congruence. }
  destruct (ObjectId (barber_id appointment_data)) as [bid|e] eqn:Hbid.
  2:{ split; [intros [r [=]]|intros [_ (? & ? & [=] & _)]]. }
  destruct (List.find _ (barbers db)) as [barber|] eqn:Hb.
  2:{ split; [intros [r [=]]|intros [_ (? & ? & [= <-] & H)]]. congruence. }
  rewrite find_one_doc_as_booked by done. simpl.
  split; [|eauto]. intros _. split; eauto.
Qed.

Lemma booking_succeeds_iff_ids_resolve_witness :
  (∃ r, fst (create_appointment id2 3000
               (booking luis "65f000000000000000000a02" monday 10 0) one_booking) = Ok r) ↔
  (∃ sid service,
     ObjectId (service_id (booking luis "65f000000000000000000a02" monday 10 0)) = Ok sid ∧
     List.find (λ s, String.eqb (service_oid s) sid) (services one_booking) = Some service) ∧
  (∃ bid barber,
     ObjectId (barber_id (booking luis "65f000000000000000000a02" monday 10 0)) = Ok bid ∧
     List.find (λ b, String.eqb (barber_oid b) bid) (barbers one_booking) = Some barber).
Proof.
  apply (booking_succeeds_iff_ids_resolve id2 3000
           (booking luis "65f000000000000000000a02" monday 10 0) one_booking).
  - repeat constructor. eexists. reflexivity.
  - vm_compute. split; discriminate.
  - intros sid service Hsid Hsvc.
    vm_compute in Hsid. injection Hsid as <-.
    vm_compute in Hsvc. injection Hsvc as <-.
    vm_compute. split; discriminate.
Defined.

Lemma find_barber_by_oids oid (l1 l2 : list Barber) :
  map barber_oid l1 = map barber_oid l2 →
  is_Some (List.find (λ b, String.eqb (barber_oid b) oid) l1) ↔
  is_Some (List.find (λ b, String.eqb (barber_oid b) oid) l2).
Proof.
  revert l2. induction l1 as [|b1 l1 IH]; intros [|b2 l2] Hm; simpl in *; try done.
  injection Hm as Hb Hm. rewrite Hb.
  destruct (String.eqb (barber_oid b2) oid); [|by apply IH].
  split; eauto.
Qed.

(** X14.  [create_appointment] never looks at a schedule: on two stores
    that differ only in what the staff documents carry besides their ids,
    it gives the same result and the same appointments. *)
Theorem booking_ignores_schedules new_id utcnow appointment_data db1 db2 :
  services db1 = services db2 →
  map barber_oid (barbers db1) = map barber_oid (barbers db2) →
  appointments db1 = appointments db2 →
  fst (create_appointment new_id utcnow appointment_data db1)
    = fst (create_appointment new_id utcnow appointment_data db2) ∧
  appointments (snd (create_appointment new_id utcnow appointment_data db1))
    = appointments (snd (create_appointment new_id utcnow appointment_data db2)).
Proof.
  intros Hs Hb Ha. unfold create_appointment. unfold_handler.
  destruct (ObjectId (service_id appointment_data)) as [sid|e]; [|done].
  cbv beta. rewrite Hs.
  destruct (List.find _ (services db2)) as [service|]; [|done].
  destruct (ObjectId (barber_id appointment_data)) as [bid|e]; [|done].
  cbv beta.
  pose proof (find_barber_by_oids bid _ _ Hb) as Hfind.
  destruct (List.find _ (barbers db1)) as [b1|], (List.find _ (barbers db2)) as [b2|];
    try done.
  - rewrite Ha. destruct (find_one_doc _ (appointments db2)) as [[x|]|e]; try done.
    simpl. by rewrite Ha.
  - destruct Hfind as [Hfind _]. by destruct Hfind.
  - destruct Hfind as [_ Hfind]. by destruct Hfind.
Qed.

Lemma booking_ignores_schedules_witness :
  fst (create_appointment id1 1000 (booking ana "65f000000000000000000a02" monday 3 0) shop)
    = fst (create_appointment id1 1000 (booking ana "65f000000000000000000a02" monday 3 0)
             {| services := services shop;
                barbers := [ {| barber_oid := the_barber_id;
                                barber_user_id := "65f000000000000000000c01";
                                schedule := ∅ |} ];
                appointments := [] |}) ∧
  appointments
    (snd (create_appointment id1 1000 (booking ana "65f000000000000000000a02" monday 3 0)
            shop))
    = appointments
        (snd (create_appointment id1 1000
                (booking ana "65f000000000000000000a02" monday 3 0)
                {| services := services shop;
                   barbers := [ {| barber_oid := the_barber_id;
                                   barber_user_id := "65f000000000000000000c01";
                                   schedule := ∅ |} ];
                   appointments := [] |})).
Proof.
  apply booking_ignores_schedules; reflexivity.
Defined.

(** X15.  The staff id of a booking is stored as the request spells it,
    while the staff member is looked up by the canonical (lowercase) form.
    An appointment booked under another spelling of a valid id is therefore
    matched by no availability query made under the canonical id. *)
Theorem booking_under_another_spelling_is_not_seen
    new_id utcnow appointment_data db r oid :
  fst (create_appointment new_id utcnow appointment_data db) = Ok r →
  ObjectId (barber_id appointment_data) = Ok oid →
  barber_id appointment_data ≠ oid →
  ∃ record,
    appointments (snd (create_appointment new_id utcnow appointment_data db))
      = appointments db ++ [record] ∧
    record !! "barber_id" = Some (VStr (barber_id appointment_data)) ∧
    ∀ start_of_day end_of_day, day_query oid start_of_day end_of_day record = false.
Proof.
  intros Hok Hoid Hne.
  destruct (create_appointment_inv new_id utcnow appointment_data db)
    as [[e He]|(sid & service & _ & _ & _ & Hc)]; [rewrite He in Hok; discriminate|].
  rewrite Hc. simpl. eexists. split; [done|].
  assert (Hb : (<["_id" := VObjectId new_id]>
                  (new_appointment_dict utcnow appointment_data service)) !! "barber_id"
               = Some (VStr (barber_id appointment_data))).
  { rewrite lookup_insert_ne by done. apply new_appointment_dict_keys. }
  split; [done|]. intros sod eod. unfold day_query.
  unfold field_matches at 1. rewrite Hb. simpl.
  by rewrite (proj2 (String.eqb_neq _ _) Hne).
Qed.

Lemma booking_under_another_spelling_is_not_seen_witness :
  ∃ record,
    appointments
      (snd (create_appointment id1 1000
              {| client_id := ana; barber_id := "65F000000000000000000B01";
                 service_id := "65f000000000000000000a02";
                 scheduled_at := combine monday (hm 10 0); notes := None |} shop))
      = appointments shop ++ [record] ∧
    record !! "barber_id" = Some (VStr "65F000000000000000000B01") ∧
    ∀ start_of_day end_of_day,
      day_query the_barber_id start_of_day end_of_day record = false.
Proof.
  apply (booking_under_another_spelling_is_not_seen id1 1000
           {| client_id := ana; barber_id := "65F000000000000000000B01";
              service_id := "65f000000000000000000a02";
              scheduled_at := combine monday (hm 10 0); notes := None |} shop
           (<["id" := VStr id1]>
              (new_appointment_dict 1000
                 {| client_id := ana; barber_id := "65F000000000000000000B01";
                    service_id := "65f000000000000000000a02";
                    scheduled_at := combine monday (hm 10 0); notes := None |}
                 corte_barba))).
  - reflexivity.
  - reflexivity.
  - discriminate.
Defined.

(** ** [create_service] and [get_services] *)

Lemma create_service_success new_id utcnow service_data current_user db :
  role current_user = ROLE_ADMIN →
  create_service new_id utcnow service_data current_user db =
    (Ok (new_service new_id utcnow service_data),
     {| services := services db ++ [new_service new_id utcnow service_data];
        barbers := barbers db; appointments := appointments db |}).
Proof.
  intros Hrole. unfold create_service, services_insert_one. unfold_handler.
  rewrite Hrole. reflexivity.
Qed.

(** X16.  [create_service] refuses whoever is not an administrator with 403
    and changes nothing; for an administrator, and a duration the store can
    hold, it appends one active service carrying the request's fields, which
    [get_services] lists from then on, after the services it listed
    before. *)
Theorem create_service_adds_a_listed_service new_id utcnow service_data current_user db :
  (role current_user ≠ ROLE_ADMIN →
   create_service new_id utcnow service_data current_user db =
     (Raise (HTTPException 403 (Msg "Solo administradores pueden crear servicios")), db)) ∧
  (role current_user = ROLE_ADMIN →
   int64 (sc_duration_minutes service_data) →
   ∃ s listed,
     fst (create_service new_id utcnow service_data current_user db) = Ok s ∧
     fst (get_services db) = Ok listed ∧
     fst (get_services (snd (create_service new_id utcnow service_data current_user db)))
       = Ok (listed ++ [s]) ∧
     service_oid s = new_id ∧
     service_name s = sc_name service_data ∧
     duration_minutes s = sc_duration_minutes service_data ∧
     price s = sc_price service_data ∧
     service_created_at s = utcnow ∧
     barbers (snd (create_service new_id utcnow service_data current_user db)) = barbers db ∧
     appointments (snd (create_service new_id utcnow service_data current_user db))
       = appointments db).
Proof.
  split.
  - intros Hrole. unfold create_service. unfold_handler.
    by rewrite (proj2 (String.eqb_neq _ _) Hrole).
  - intros Hrole _. rewrite (create_service_success _ _ _ _ _ Hrole).
    exists (new_service new_id utcnow service_data), (List.filter service_active (services db)).
    repeat split. unfold get_services. simpl. by rewrite List.filter_app.
Qed.

Lemma create_service_adds_a_listed_service_witness :
  ∃ s listed,
    fst (create_service id3 4000 afeitado admin shop) = Ok s ∧
    fst (get_services shop) = Ok listed ∧
    fst (get_services (snd (create_service id3 4000 afeitado admin shop)))
      = Ok (listed ++ [s]) ∧
    service_oid s = id3 ∧
    service_name s = sc_name afeitado ∧
    duration_minutes s = sc_duration_minutes afeitado ∧
    price s = sc_price afeitado ∧
    service_created_at s = 4000 ∧
    barbers (snd (create_service id3 4000 afeitado admin shop)) = barbers shop ∧
    appointments (snd (create_service id3 4000 afeitado admin shop)) = appointments shop.
Proof.
  apply (proj2 (create_service_adds_a_listed_service id3 4000 afeitado admin shop)).
  - reflexivity.
  - vm_compute. split; [discriminate|reflexivity].
Defined.

Lemma find_service_appended oid (l : list Service) s :
  Forall (λ x, service_oid x ≠ oid) l → service_oid s = oid →
  List.find (λ x, String.eqb (service_oid x) oid) (l ++ [s]) = Some s.
Proof. intros HF Hs. by apply find_first_service. Qed.

(** X17.  A service an administrator has just created under a fresh id, with
    a duration the store can hold, can be booked at once for any start that
    keeps start and end within the range of [datetime], and the appointment
    carries the price the service was created with. *)
Theorem created_service_is_bookable new_id utcnow service_data current_user db
    appointment_id now appointment_data bid barber :
  role current_user = ROLE_ADMIN →
  int64 (sc_duration_minutes service_data) →
  Forall (λ s, service_oid s ≠ new_id) (services db) →
  Forall as_booked (appointments db) →
  ObjectId (service_id appointment_data) = Ok new_id →
  ObjectId (barber_id appointment_data) = Ok bid →
  List.find (λ b, String.eqb (barber_oid b) bid) (barbers db) = Some barber →
  within_datetime_range (scheduled_at appointment_data) →
  within_datetime_range
    (scheduled_at appointment_data + timedelta (sc_duration_minutes service_data)) →
  ∃ r,
    fst (create_appointment appointment_id now appointment_data
           (snd (create_service new_id utcnow service_data current_user db))) = Ok r ∧
    r !! "total_price" = Some (VFloat (sc_price service_data)) ∧
    r !! "status" = Some (VStr STATUS_PENDING).
Proof.
  intros Hrole _ Hfresh Hdb Hsid Hbid Hb _ _.
  rewrite (create_service_success _ _ _ _ _ Hrole).
  unfold create_appointment. unfold_handler. cbn [snd].
  rewrite Hsid. cbv beta. cbn [services barbers appointments].
  rewrite find_service_appended by done. rewrite Hbid. cbv beta.
  cbn [services barbers appointments]. rewrite Hb.
  rewrite find_one_doc_as_booked by done. cbn [fst]. eexists. split; [done|].
  rewrite !lookup_insert_ne by done.
  split; apply new_appointment_dict_keys.
Qed.

Lemma created_service_is_bookable_witness :
  ∃ r,
    fst (create_appointment id1 5000 (booking ana id3 monday 9 0)
           (snd (create_service id3 4000 afeitado admin shop))) = Ok r ∧
    r !! "total_price" = Some (VFloat (sc_price afeitado)) ∧
    r !! "status" = Some (VStr STATUS_PENDING).
Proof.
  apply (created_service_is_bookable id3 4000 afeitado admin shop id1 5000
           (booking ana id3 monday 9 0) the_barber_id the_barber).
  - reflexivity.
  - vm_compute. split; [discriminate|reflexivity].
  - repeat constructor; discriminate.
  - constructor.
  - reflexivity.
  - reflexivity.
  - reflexivity.
  - vm_compute. split; discriminate.
  - vm_compute. split; discriminate.
Defined.

Lemma update_one_service_active oid f l :
  (∀ s, service_active s = true → service_active (f s) = true) →
  Forall (λ s, service_active s = true) l →
  Forall (λ s, service_active s = true) (snd (update_one_service oid f l)).
Proof.
  intros Hf. induction 1 as [|s l Hs HF IH]; simpl; [constructor|].
  destruct (String.eqb (service_oid s) oid).
  - simpl. constructor; auto.
  - destruct (update_one_service oid f l) as [n r]. simpl in *. by constructor.
Qed.

Lemma filter_all {A} (p : A → bool) l :
  Forall (λ x, p x = true) l → List.filter p l = l.
Proof. induction 1 as [|x l Hx _ IH]; simpl; [done|]. by rewrite Hx, IH. Qed.

(** X18.  No service handler ever deactivates a service: when every stored
    service is active, it is so after any [create_service] or
    [update_service] call, and [get_services] returns the whole collection. *)
Theorem services_stay_listed new_id utcnow service_id service_data current_user db :
  Forall (λ s, service_active s = true) (services db) →
  let db1 := snd (create_service new_id utcnow service_data current_user db) in
  let db2 := snd (update_service utcnow service_id service_data current_user db) in
  Forall (λ s, service_active s = true) (services db1) ∧
  fst (get_services db1) = Ok (services db1) ∧
  Forall (λ s, service_active s = true) (services db2) ∧
  fst (get_services db2) = Ok (services db2).
Proof.
  intros Hdb db1 db2.
  assert (H1 : Forall (λ s, service_active s = true) (services db1)).
  { subst db1. unfold create_service, services_insert_one. unfold_handler.
    destruct (negb _); [done|]. simpl. apply Forall_app. split; [done|].
    by repeat constructor. }
  assert (H2 : Forall (λ s, service_active s = true) (services db2)).
  { subst db2. unfold update_service. unfold_handler.
    destruct (negb _); [done|].
    destruct (ObjectId service_id) as [oid|e]; [|done].
    pose proof (update_one_service_active oid (set_service utcnow service_data)
                  (services db) (λ s H, H) Hdb) as Hu.
    destruct (update_one_service oid _ (services db)) as [n l]. simpl in Hu.
    by destruct (n =? 0). }
  unfold get_services. simpl. rewrite !filter_all by done. done.
Qed.

Lemma services_stay_listed_witness :
  let db1 := snd (create_service id3 4000 afeitado admin shop) in
  let db2 := snd (update_service 4000 "65f000000000000000000a02" afeitado admin shop) in
  Forall (λ s, service_active s = true) (services db1) ∧
  fst (get_services db1) = Ok (services db1) ∧
  Forall (λ s, service_active s = true) (services db2) ∧
  fst (get_services db2) = Ok (services db2).
Proof.
  apply (services_stay_listed id3 4000 "65f000000000000000000a02" afeitado admin shop).
  repeat constructor.
Defined.

(** ** [update_barber] *)

Lemma update_one_barber_spec oid f l :
  (update_one_barber oid f l = (0, l) ∧ Forall (λ b, barber_oid b ≠ oid) l) ∨
  (∃ l1 b l2, l = l1 ++ b :: l2 ∧ Forall (λ b, barber_oid b ≠ oid) l1 ∧
              barber_oid b = oid ∧
              update_one_barber oid f l = (1, l1 ++ f b :: l2)).
Proof.
  induction l as [|b l IH]; simpl.
  - left. by split.
  - destruct (String.eqb (barber_oid b) oid) eqn:Hb.
    + apply String.eqb_eq in Hb. right. exists [], b, l. by repeat split.
    + apply String.eqb_neq in Hb.
      destruct IH as [[-> HF]|(l1 & b' & l2 & -> & HF & Hb' & ->)].
      * left. split; [done|]. by constructor.
      * right. exists (b :: l1), b', l2. repeat split; [by constructor|done].
Qed.

Lemma first_barber_unique oid (l1 : list Barber) b l2 l1' b' l2' :
  l1 ++ b :: l2 = l1' ++ b' :: l2' →
  Forall (λ b, barber_oid b ≠ oid) l1 → barber_oid b = oid →
  Forall (λ b, barber_oid b ≠ oid) l1' → barber_oid b' = oid →
  l1 = l1' ∧ b = b' ∧ l2 = l2'.
Proof.
  revert l1'. induction l1 as [|x l1 IH]; intros [|x' l1'] Heq H1 Hb H1' Hb'; simpl in *.
  - by simplify_eq.
  - simplify_eq. inversion H1'; congruence.
  - simplify_eq. inversion H1; congruence.
  - simplify_eq. inversion H1; inversion H1'; subst.
    destruct (IH l1') as (-> & -> & ->); auto.
Qed.

Lemma find_first_barber oid (l1 : list Barber) b l2 :
  Forall (λ b, barber_oid b ≠ oid) l1 → barber_oid b = oid →
  List.find (λ b, String.eqb (barber_oid b) oid) (l1 ++ b :: l2) = Some b.
Proof.
  intros HF Hb. induction HF as [|x l1 Hx HF IH]; simpl.
  - by rewrite (proj2 (String.eqb_eq _ _) Hb).
  - by rewrite (proj2 (String.eqb_neq _ _) Hx).
Qed.

Lemma update_barber_check_refused barber_id current_user db bid :
  role current_user ≠ ROLE_ADMIN →
  ObjectId barber_id = Ok bid →
  (∀ b, List.find (λ b, String.eqb (barber_oid b) bid) (barbers db) = Some b →
        barber_user_id b ≠ user_id_of current_user) →
  update_barber_check barber_id current_user db =
    (Raise (HTTPException 403 (Msg "No autorizado")), db).
Proof.
  intros Hrole Hbid Hother. unfold update_barber_check. unfold_handler.
  rewrite (proj2 (String.eqb_neq _ _) Hrole). cbn [negb]. rewrite Hbid. cbv beta.
  destruct (List.find _ (barbers db)) as [b|] eqn:Hb; [|done].
  by rewrite (proj2 (String.eqb_neq _ _) (Hother b eq_refl)).
Qed.

Lemma update_barber_check_passed barber_id current_user db bid l1 b l2 :
  ObjectId barber_id = Ok bid →
  barbers db = l1 ++ b :: l2 →
  Forall (λ b, barber_oid b ≠ bid) l1 →
  barber_oid b = bid →
  role current_user = ROLE_ADMIN ∨ barber_user_id b = user_id_of current_user →
  update_barber_check barber_id current_user db = (Ok (), db).
Proof.
  intros Hbid Hl HF Hb Hmay. unfold update_barber_check. unfold_handler.
  destruct (String.eqb (role current_user) ROLE_ADMIN) eqn:Hr; [done|].
  cbn [negb]. rewrite Hbid. cbv beta. rewrite Hl, find_first_barber by done.
  destruct Hmay as [Hadm|Hown].
  - apply String.eqb_neq in Hr. done.
  - by rewrite (proj2 (String.eqb_eq _ _) Hown).
Qed.

Lemma update_barber_refused barber_id barber_data current_user db bid :
  role current_user ≠ ROLE_ADMIN →
  ObjectId barber_id = Ok bid →
  (∀ b, List.find (λ b, String.eqb (barber_oid b) bid) (barbers db) = Some b →
        barber_user_id b ≠ user_id_of current_user) →
  update_barber barber_id barber_data current_user db =
    (Raise (HTTPException 400 (StrOf (HTTPException 403 (Msg "No autorizado")))), db).
Proof.
  intros Hrole Hbid Hother. unfold update_barber, try_except, bind.
  by rewrite (update_barber_check_refused _ _ _ bid).
Qed.

Lemma update_barber_success barber_id barber_data current_user db bid l1 b l2 :
  ObjectId barber_id = Ok bid →
  barbers db = l1 ++ b :: l2 →
  Forall (λ b, barber_oid b ≠ bid) l1 →
  barber_oid b = bid →
  role current_user = ROLE_ADMIN ∨ barber_user_id b = user_id_of current_user →
  update_barber barber_id barber_data current_user db =
    (Ok "Barbero actualizado exitosamente"%string,
     {| services := services db; barbers := l1 ++ set_barber barber_data b :: l2;
        appointments := appointments db |}).
Proof.
  intros Hbid Hl HF Hb Hmay. unfold update_barber, try_except, bind.
  rewrite (update_barber_check_passed _ _ _ bid l1 b l2) by done.
  unfold lift, barbers_update_one, raise, ret. rewrite Hbid.
  destruct (update_one_barber_spec bid (set_barber barber_data) (barbers db))
    as [[_ HF']|(l1' & b' & l2' & Hl' & HF' & Hb' & ->)].
  - rewrite Hl in HF'. apply Forall_app in HF' as [_ HF']. inversion HF'; congruence.
  - rewrite Hl in Hl'.
    by destruct (first_barber_unique bid _ _ _ _ _ _ Hl' HF Hb HF' Hb') as (<- & <- & <-).
Qed.

(** X19.  Someone who is no administrator cannot update a staff profile
    that does not exist or belongs to another user: the call is refused and
    nothing changes. *)
Theorem update_barber_refuses_strangers barber_id barber_data current_user db bid :
  role current_user ≠ ROLE_ADMIN →
  ObjectId barber_id = Ok bid →
  (List.find (λ b, String.eqb (barber_oid b) bid) (barbers db) = None ∨
   ∃ b, List.find (λ b, String.eqb (barber_oid b) bid) (barbers db) = Some b ∧
        barber_user_id b ≠ user_id_of current_user) →
  update_barber barber_id barber_data current_user db =
    (Raise (HTTPException 400 (StrOf (HTTPException 403 (Msg "No autorizado")))), db).
Proof.
  intros Hrole Hbid Hcase. apply (update_barber_refused _ _ _ _ bid); try done.
  intros b Hb. destruct Hcase as [Hnone|(b' & Hb' & Hne)]; congruence.
Qed.

Lemma update_barber_refuses_strangers_witness :
  update_barber the_barber_id no_mondays {| user_id_of := ana; role := ROLE_BARBER |} shop =
    (Raise (HTTPException 400 (StrOf (HTTPException 403 (Msg "No autorizado")))), shop).
Proof.
  apply (update_barber_refuses_strangers the_barber_id no_mondays
           {| user_id_of := ana; role := ROLE_BARBER |} shop the_barber_id).
  - discriminate.
  - reflexivity.
  - right. exists the_barber. split; [reflexivity|discriminate].
Defined.

(** X20.  An administrator, or the user a staff profile belongs to, updates
    the first profile with the given id: [user_id] is replaced, the schedule
    only when the request sets one, services and appointments stay.  The
    slots follow the new schedule at once: a date whose weekday has no entry
    in it has none. *)
Theorem update_barber_sets_the_schedule barber_id barber_data current_user db bid l1 b l2 :
  ObjectId barber_id = Ok bid →
  barbers db = l1 ++ b :: l2 →
  Forall (λ b, barber_oid b ≠ bid) l1 →
  barber_oid b = bid →
  role current_user = ROLE_ADMIN ∨ barber_user_id b = user_id_of current_user →
  ∃ b',
    update_barber barber_id barber_data current_user db =
      (Ok "Barbero actualizado exitosamente"%string,
       {| services := services db; barbers := l1 ++ b' :: l2;
          appointments := appointments db |}) ∧
    barber_oid b' = barber_oid b ∧
    barber_user_id b' = bc_user_id barber_data ∧
    (bc_schedule barber_data = None → schedule b' = schedule b) ∧
    (∀ sch, bc_schedule barber_data = Some sch → schedule b' = sch) ∧
    (∀ sch clock target_date,
       bc_schedule barber_data = Some sch →
       sch !! day_name target_date = None →
       fst (get_barber_availability clock barber_id target_date
              (snd (update_barber barber_id barber_data current_user db))) = Ok []).
Proof.
  intros Hbid Hl HF Hb Hmay. exists (set_barber barber_data b).
  rewrite (update_barber_success _ _ _ _ bid l1 b l2) by done.
  split; [done|]. split; [done|]. split; [done|].
  split; [intros H; simpl; by rewrite H|]. split; [intros sch H; simpl; by rewrite H|].
  intros sch clock target_date Hsch Hday.
  unfold get_barber_availability. unfold_handler. rewrite Hbid. cbv beta.
  cbn [snd barbers]. rewrite find_first_barber by done.
  cbv beta iota. unfold set_barber. cbn [schedule]. rewrite Hsch. cbn [default from_option].
  unfold id. by rewrite Hday.
Qed.

Lemma update_barber_sets_the_schedule_witness :
  ∃ b',
    update_barber the_barber_id no_mondays beto shop =
      (Ok "Barbero actualizado exitosamente"%string,
       {| services := services shop; barbers := [] ++ b' :: [];
          appointments := appointments shop |}) ∧
    barber_oid b' = barber_oid the_barber ∧
    barber_user_id b' = bc_user_id no_mondays ∧
    (bc_schedule no_mondays = None → schedule b' = schedule the_barber) ∧
    (∀ sch, bc_schedule no_mondays = Some sch → schedule b' = sch) ∧
    (∀ sch clock target_date,
       bc_schedule no_mondays = Some sch →
       sch !! day_name target_date = None →
       fst (get_barber_availability clock the_barber_id target_date
              (snd (update_barber the_barber_id no_mondays beto shop))) = Ok []).
Proof.
  apply (update_barber_sets_the_schedule the_barber_id no_mondays beto shop
           the_barber_id [] the_barber []).
  - reflexivity.
  - reflexivity.
  - constructor.
  - reflexivity.
  - right. reflexivity.
Defined.

(** X21.  [user_id] is part of every update.  A staff member who is no
    administrator and saves the profile under another user id has handed it
    over: the next update of that profile from the same account is
    refused. *)
Theorem update_barber_hands_the_profile_over
    barber_id barber_data barber_data' current_user db bid l1 b l2 :
  role current_user ≠ ROLE_ADMIN →
  ObjectId barber_id = Ok bid →
  barbers db = l1 ++ b :: l2 →
  Forall (λ b, barber_oid b ≠ bid) l1 →
  barber_oid b = bid →
  barber_user_id b = user_id_of current_user →
  bc_user_id barber_data ≠ user_id_of current_user →
  fst (update_barber barber_id barber_data current_user db)
    = Ok "Barbero actualizado exitosamente"%string ∧
  fst (update_barber barber_id barber_data' current_user
         (snd (update_barber barber_id barber_data current_user db)))
    = Raise (HTTPException 400 (StrOf (HTTPException 403 (Msg "No autorizado")))).
Proof.
  intros Hrole Hbid Hl HF Hb Hown Hnew.
  rewrite (update_barber_success _ _ _ _ bid l1 b l2) by auto.
  split; [done|]. cbn [snd].
  rewrite (update_barber_refused _ _ _ _ bid); [done|done|done|].
  cbn [barbers]. intros b'. rewrite find_first_barber by done.
  intros [= <-]. done.
Qed.

Lemma update_barber_hands_the_profile_over_witness :
  fst (update_barber the_barber_id
         {| bc_user_id := luis; bc_schedule := None |} beto shop)
    = Ok "Barbero actualizado exitosamente"%string ∧
  fst (update_barber the_barber_id no_mondays beto
         (snd (update_barber the_barber_id
                 {| bc_user_id := luis; bc_schedule := None |} beto shop)))
    = Raise (HTTPException 400 (StrOf (HTTPException 403 (Msg "No autorizado")))).
Proof.
  apply (update_barber_hands_the_profile_over the_barber_id
           {| bc_user_id := luis; bc_schedule := None |} no_mondays beto shop
           the_barber_id [] the_barber []).
  - discriminate.
  - reflexivity.
  - reflexivity.
  - constructor.
  - reflexivity.
  - reflexivity.
  - discriminate.
Defined.

(** ** [get_appointments] *)

#[global] Instance scheduled_le_total : Total scheduled_le.
Proof.
  intros x y. unfold scheduled_le, scheduled_leb.
  destruct (sort_key x) as [a|], (sort_key y) as [b|]; auto.
  rewrite !Z.leb_le. lia.
Qed.

#[global] Instance scheduled_le_trans : Transitive scheduled_le.
Proof.
  intros x y z. unfold scheduled_le, scheduled_leb.
  destruct (sort_key x) as [a|], (sort_key y) as [b|], (sort_key z) as [c|];
    try done. rewrite !Z.leb_le. lia.
Qed.

Lemma listing_query_reads_only current_user db :
  ∃ q, listing_query current_user db = (Ok q, db).
Proof.
  unfold listing_query. unfold_handler.
  destruct (String.eqb _ ROLE_CLIENT); [eauto|].
  destruct (String.eqb _ ROLE_BARBER); [|eauto].
  destruct (List.find _ (barbers db)); eauto.
Qed.

Lemma get_appointments_inv users current_user db infos :
  fst (get_appointments users current_user db) = Ok infos →
  ∃ q, listing_query current_user db = (Ok q, db) ∧
       appointment_infos users db
         (merge_sort scheduled_le (List.filter q (appointments db))) = Ok infos.
Proof.
  unfold get_appointments. unfold_handler.
  destruct (listing_query_reads_only current_user db) as [q Hq]. rewrite Hq.
  destruct (appointment_infos _ _ _) as [l|e] eqn:Hl; [|discriminate].
  intros [= <-]. eauto.
Qed.

Lemma appointment_infos_Forall2 users db l infos :
  appointment_infos users db l = Ok infos →
  Forall2 (λ d info, appointment_info users db d = Ok info) l infos.
Proof.
  revert infos. induction l as [|d l IH]; simpl; intros infos.
  - intros [= <-]. constructor.
  - destruct (appointment_info users db d) as [info|e] eqn:Hd; [|discriminate]. simpl.
    destruct (appointment_infos users db l) as [infos'|e] eqn:Hl; [|discriminate]. simpl.
    intros [= <-]. constructor; auto.
Qed.

(** What an entry of the listing takes from its appointment. *)
Lemma appointment_info_fields users db d info :
  appointment_info users db d = Ok info →
  info !! "scheduled_at" = d !! "scheduled_at" ∧
  info !! "status" = d !! "status" ∧
  info !! "total_price" = d !! "total_price" ∧
  ∀ oid, d !! "_id" = Some (VObjectId oid) → info !! "id" = Some (VStr oid).
Proof.
  unfold appointment_info, getitem. intros H.
  repeat match type of H with
         | result_bind ?r _ = Ok _ =>
             let a := fresh "a" in let Ha := fresh "Ha" in let Hk := fresh "Hk" in
             apply result_bind_Ok in H as (a & Ha & Hk); rename Hk into H
         end.
  injection H as <-.
  repeat match goal with
         | Hx : match ?d !! ?k with Some _ => _ | None => _ end = Ok _ |- _ =>
             destruct (d !! k) eqn:?; [injection Hx as <-|discriminate Hx]
         end.
  unfold appointment_info_dict.
  repeat split;
    repeat (first [rewrite lookup_insert_eq | rewrite lookup_insert_ne by done]);
    try done.
  by intros oid [= ->].
Qed.

Lemma listing_items users db q infos :
  appointment_infos users db
    (merge_sort scheduled_le (List.filter q (appointments db))) = Ok infos →
  (∀ info, info ∈ infos →
     ∃ d, d ∈ appointments db ∧ q d = true ∧ appointment_info users db d = Ok info) ∧
  (∀ d, d ∈ appointments db → q d = true →
     ∃ info, info ∈ infos ∧ appointment_info users db d = Ok info) ∧
  List.length infos = List.length (List.filter q (appointments db)).
Proof.
  intros H. apply appointment_infos_Forall2 in H.
  pose proof (merge_sort_Permutation scheduled_le (List.filter q (appointments db))) as Hp.
  split; [|split].
  - intros info Hin.
    destruct (proj1 (list_elem_of_lookup _ _) Hin) as [i Hi].
    destruct (Forall2_lookup_r _ _ _ _ _ H Hi) as (d & Hd & Hinfo).
    exists d. apply list_elem_of_lookup_2 in Hd. rewrite Hp in Hd.
    apply list_elem_of_In, filter_In in Hd as [Hd Hq].
    repeat split; [by apply list_elem_of_In|done|done].
  - intros d Hd Hq.
    assert (Hs : d ∈ merge_sort scheduled_le (List.filter q (appointments db))).
    { rewrite Hp. apply list_elem_of_In, filter_In. split; [by apply list_elem_of_In|done]. }
    destruct (proj1 (list_elem_of_lookup _ _) Hs) as [i Hi].
    destruct (Forall2_lookup_l _ _ _ _ _ H Hi) as (info & Hinfo & Hok).
    exists info. split; [by eapply list_elem_of_lookup_2|done].
  - rewrite <- (Forall2_length _ _ _ H). by rewrite Hp.
Qed.

(** X22.  A client is shown their own appointments and nothing else: each
    entry stems from an appointment whose [client_id] is the caller's id,
    with that appointment's start, status and price, and every such
    appointment has its entry. *)
Theorem client_sees_own_appointments_only users current_user db infos :
  role current_user = ROLE_CLIENT →
  fst (get_appointments users current_user db) = Ok infos →
  (∀ info, info ∈ infos →
     ∃ d, d ∈ appointments db ∧
          field_matches (λ v, eq_str v (user_id_of current_user)) d "client_id" = true ∧
          info !! "scheduled_at" = d !! "scheduled_at" ∧
          info !! "status" = d !! "status" ∧
          info !! "total_price" = d !! "total_price") ∧
  (∀ d, d ∈ appointments db →
     field_matches (λ v, eq_str v (user_id_of current_user)) d "client_id" = true →
     ∃ info, info ∈ infos ∧ appointment_info users db d = Ok info) ∧
  List.length infos =
    List.length (List.filter
                   (λ d, field_matches (λ v, eq_str v (user_id_of current_user)) d "client_id")
                   (appointments db)).
Proof.
  intros Hrole Hout. apply get_appointments_inv in Hout as (q & Hq & Hinfos).
  unfold listing_query in Hq. unfold_handler. rewrite Hrole in Hq. simpl in Hq.
  injection Hq as <-.
  destruct (listing_items _ _ _ _ Hinfos) as (H1 & H2 & H3).
  split; [|split; [exact H2|exact H3]].
  intros info Hin. destruct (H1 info Hin) as (d & Hd & Hq & Hinfo).
  exists d. destruct (appointment_info_fields _ _ _ _ Hinfo) as (? & ? & ? & _).
  by repeat split.
Qed.

Lemma client_sees_own_appointments_only_witness :
  (∀ info, info ∈ default [] (match fst (get_appointments the_users
                                           {| user_id_of := luis; role := ROLE_CLIENT |}
                                           two_bookings) with
                               | Ok l => Some l | Raise _ => None end) →
     ∃ d, d ∈ appointments two_bookings ∧
          field_matches (λ v, eq_str v luis) d "client_id" = true ∧
          info !! "scheduled_at" = d !! "scheduled_at" ∧
          info !! "status" = d !! "status" ∧
          info !! "total_price" = d !! "total_price") ∧
  (∀ d, d ∈ appointments two_bookings →
     field_matches (λ v, eq_str v luis) d "client_id" = true →
     ∃ info, info ∈ default [] (match fst (get_appointments the_users
                                            {| user_id_of := luis; role := ROLE_CLIENT |}
                                            two_bookings) with
                                | Ok l => Some l | Raise _ => None end) ∧
             appointment_info the_users two_bookings d = Ok info) ∧
  List.length (default [] (match fst (get_appointments the_users
                                        {| user_id_of := luis; role := ROLE_CLIENT |}
                                        two_bookings) with
                            | Ok l => Some l | Raise _ => None end)) =
    List.length (List.filter (λ d, field_matches (λ v, eq_str v luis) d "client_id")
                   (appointments two_bookings)).
Proof.
  apply (client_sees_own_appointments_only the_users
           {| user_id_of := luis; role := ROLE_CLIENT |} two_bookings).
  - reflexivity.
  - reflexivity.
Defined.

(** X23.  A staff member is shown the appointments of their profile (the
    first one stored under their user id) and nothing else. *)
Theorem barber_sees_profile_appointments_only users current_user db infos barber :
  role current_user = ROLE_BARBER →
  List.find (λ b, String.eqb (barber_user_id b) (user_id_of current_user)) (barbers db)
    = Some barber →
  fst (get_appointments users current_user db) = Ok infos →
  (∀ info, info ∈ infos →
     ∃ d, d ∈ appointments db ∧
          field_matches (λ v, eq_str v (barber_oid barber)) d "barber_id" = true ∧
          info !! "scheduled_at" = d !! "scheduled_at" ∧
          info !! "status" = d !! "status" ∧
          info !! "total_price" = d !! "total_price") ∧
  (∀ d, d ∈ appointments db →
     field_matches (λ v, eq_str v (barber_oid barber)) d "barber_id" = true →
     ∃ info, info ∈ infos ∧ appointment_info users db d = Ok info).
Proof.
  intros Hrole Hprofile Hout. apply get_appointments_inv in Hout as (q & Hq & Hinfos).
  unfold listing_query in Hq. unfold_handler. rewrite Hrole in Hq.
  cbn [String.eqb Ascii.eqb Bool.eqb ROLE_BARBER ROLE_CLIENT] in Hq. cbv beta in Hq.
  rewrite Hprofile in Hq. injection Hq as <-.
  destruct (listing_items _ _ _ _ Hinfos) as (H1 & H2 & _).
  split; [|exact H2].
  intros info Hin. destruct (H1 info Hin) as (d & Hd & Hq & Hinfo).
  exists d. destruct (appointment_info_fields _ _ _ _ Hinfo) as (? & ? & ? & _).
  by repeat split.
Qed.

Lemma barber_sees_profile_appointments_only_witness :
  (∀ info, info ∈ default [] (match fst (get_appointments the_users beto two_bookings) with
                               | Ok l => Some l | Raise _ => None end) →
     ∃ d, d ∈ appointments two_bookings ∧
          field_matches (λ v, eq_str v (barber_oid the_barber)) d "barber_id" = true ∧
          info !! "scheduled_at" = d !! "scheduled_at" ∧
          info !! "status" = d !! "status" ∧
          info !! "total_price" = d !! "total_price") ∧
  (∀ d, d ∈ appointments two_bookings →
     field_matches (λ v, eq_str v (barber_oid the_barber)) d "barber_id" = true →
     ∃ info, info ∈ default [] (match fst (get_appointments the_users beto two_bookings) with
                                | Ok l => Some l | Raise _ => None end) ∧
             appointment_info the_users two_bookings d = Ok info).
Proof.
  apply (barber_sees_profile_appointments_only the_users beto two_bookings).
  - reflexivity.
  - reflexivity.
  - reflexivity.
Defined.

Lemma filter_true {A} (l : list A) : List.filter (λ _, true) l = l.
Proof. induction l as [|x l IH]; simpl; [done|]. by rewrite IH. Qed.

(** X24.  Whoever is no client, and no barber with a staff profile, is shown
    every appointment of the store: an administrator, but also an account
    with the barber role and no profile, or with any other role. *)
Theorem accounts_without_a_filter_see_everything users current_user db infos :
  role current_user ≠ ROLE_CLIENT →
  (role current_user = ROLE_BARBER →
   List.find (λ b, String.eqb (barber_user_id b) (user_id_of current_user)) (barbers db)
     = None) →
  fst (get_appointments users current_user db) = Ok infos →
  List.length infos = List.length (appointments db) ∧
  ∀ d, d ∈ appointments db →
       ∃ info, info ∈ infos ∧ appointment_info users db d = Ok info.
Proof.
  intros Hclient Hbarber Hout. apply get_appointments_inv in Hout as (q & Hq & Hinfos).
  assert (q = λ _, true) as ->.
  { unfold listing_query in Hq. unfold_handler.
    rewrite (proj2 (String.eqb_neq _ _) Hclient) in Hq.
    destruct (String.eqb (role current_user) ROLE_BARBER) eqn:Hb.
    - apply String.eqb_eq in Hb. cbv beta in Hq. rewrite (Hbarber Hb) in Hq.
      by injection Hq.
    - by injection Hq. }
  destruct (listing_items _ _ _ _ Hinfos) as (_ & H2 & H3).
  rewrite filter_true in H3. split; [done|]. intros d Hd. by apply H2.
Qed.

Lemma accounts_without_a_filter_see_everything_witness :
  List.length (default [] (match fst (get_appointments the_users
                                        {| user_id_of := ana; role := ROLE_BARBER |}
                                        two_bookings) with
                            | Ok l => Some l | Raise _ => None end))
  = List.length (appointments two_bookings) ∧
  ∀ d, d ∈ appointments two_bookings →
       ∃ info, info ∈ default [] (match fst (get_appointments the_users
                                              {| user_id_of := ana; role := ROLE_BARBER |}
                                              two_bookings) with
                                  | Ok l => Some l | Raise _ => None end) ∧
               appointment_info the_users two_bookings d = Ok info.
Proof.
  apply (accounts_without_a_filter_see_everything the_users
           {| user_id_of := ana; role := ROLE_BARBER |} two_bookings).
  - discriminate.
  - reflexivity.
  - reflexivity.
Defined.

Lemma sorted_dates (docs : list (gmap string value)) (infos : list (gmap string value)) :
  StronglySorted scheduled_le docs →
  Forall as_booked docs →
  Forall2 (λ d info, info !! "scheduled_at" = d !! "scheduled_at") docs infos →
  ∃ ts, Forall2 (λ (info : gmap string value) t, info !! "scheduled_at" = Some (VDate t))
          infos ts ∧
        Forall2 (λ (d : gmap string value) t, sort_key d = Some t) docs ts ∧
        StronglySorted Z.le ts.
Proof.
  intros Hs Hb H2. revert infos H2.
  induction Hs as [|d docs Hs IH Hd]; intros infos H2.
  - inversion H2; subst. exists []. repeat constructor.
  - inversion H2 as [|? info ? infos' Hinfo Hrest]; subst.
    inversion Hb as [|? ? [_ [t Ht]] Hb']; subst.
    destruct (IH Hb' _ Hrest) as (ts & Hts & Hkeys & Hsorted).
    assert (Hk : sort_key d = Some t) by (unfold sort_key; by rewrite Ht).
    exists (t :: ts). split; [constructor; [congruence|done]|].
    split; [by constructor|]. constructor; [done|].
    apply Forall_forall. intros t' Ht'.
    destruct (proj1 (list_elem_of_lookup _ _) Ht') as [i Hi].
    destruct (Forall2_lookup_r _ _ _ _ _ Hkeys Hi) as (d' & Hd' & Hk').
    apply list_elem_of_lookup_2 in Hd'.
    pose proof (proj1 (Forall_forall _ _) Hd d' Hd') as Hle.
    unfold scheduled_le, scheduled_leb in Hle. rewrite Hk, Hk' in Hle.
    by apply Z.leb_le.
Qed.

(** X25.  The listing is ordered by start: on a store whose appointments
    carry a date under [scheduled_at], the entries come with ascending
    [scheduled_at]. *)
Theorem listing_is_ordered_by_start users current_user db infos :
  Forall as_booked (appointments db) →
  fst (get_appointments users current_user db) = Ok infos →
  ∃ ts, Forall2 (λ (info : gmap string value) t, info !! "scheduled_at" = Some (VDate t))
          infos ts ∧
        StronglySorted Z.le ts.
Proof.
  intros Hdb Hout. apply get_appointments_inv in Hout as (q & _ & Hinfos).
  apply appointment_infos_Forall2 in Hinfos.
  pose proof (merge_sort_Permutation scheduled_le (List.filter q (appointments db))) as Hp.
  destruct (sorted_dates
              (merge_sort scheduled_le (List.filter q (appointments db))) infos)
    as (ts & Hts & _ & Hsorted); eauto.
  - apply StronglySorted_merge_sort; apply _.
  - apply Forall_forall. intros d Hd. rewrite Hp in Hd.
    apply list_elem_of_In, filter_In in Hd as [Hd _]. apply list_elem_of_In in Hd.
    by apply (proj1 (Forall_forall _ _) Hdb).
  - eapply Forall2_impl; [exact Hinfos|]. intros d info Hinfo.
    by destruct (appointment_info_fields _ _ _ _ Hinfo) as (? & _).
Qed.

Lemma listing_is_ordered_by_start_witness :
  ∃ ts, Forall2 (λ (info : gmap string value) t, info !! "scheduled_at" = Some (VDate t))
          (default [] (match fst (get_appointments the_users admin two_bookings) with
                       | Ok l => Some l | Raise _ => None end)) ts ∧
        StronglySorted Z.le ts.
Proof.
  apply (listing_is_ordered_by_start the_users admin two_bookings).
  - repeat constructor; eexists; reflexivity.
  - reflexivity.
Defined.

(** X26.  The duration shown in the listing and the duration that blocks
    slots are both taken from the service as it is now, and agree while the
    service exists; when it is gone the listing shows 0 minutes while the
    slot filter keeps 60 minutes occupied. *)
Theorem listed_and_occupied_duration users db d info b :
  appointment_info users db d = Ok info →
  occupied db d = Ok b →
  ∃ sv sid,
    d !! "service_id" = Some sv ∧
    ObjectId_of_value sv = Ok sid ∧
    match List.find (λ s, String.eqb (service_oid s) sid) (services db) with
    | Some s =>
        info !! "duration_minutes" = Some (VInt (duration_minutes s)) ∧
        busy_end b = busy_start b + timedelta (duration_minutes s)
    | None =>
        info !! "duration_minutes" = Some (VInt 0) ∧
        busy_end b = busy_start b + timedelta 60
    end.
Proof.
  unfold occupied, busy_of, appointment_info, getitem. intros Hinfo Hb.
  destruct (d !! "client_id") as [cv|]; [|discriminate]. simpl in Hinfo.
  destruct (ObjectId_of_value cv) as [cid|]; [|discriminate]. simpl in Hinfo.
  destruct (d !! "barber_id") as [bv|]; [|discriminate]. simpl in Hinfo.
  destruct (ObjectId_of_value bv) as [bid|]; [|discriminate]. simpl in Hinfo.
  destruct (barber_user_of _ _) as [bu|]; [|discriminate]. simpl in Hinfo.
  destruct (d !! "service_id") as [sv|]; [|discriminate]. simpl in Hinfo, Hb.
  destruct (ObjectId_of_value sv) as [sid|] eqn:Hsid; [|discriminate]. simpl in Hinfo, Hb.
  destruct (d !! "_id") as [idv|]; [|discriminate]. simpl in Hinfo.
  destruct (d !! "scheduled_at") as [st|]; [|discriminate]. simpl in Hinfo, Hb.
  destruct (d !! "status") as [status|]; [|discriminate]. simpl in Hinfo.
  destruct (d !! "total_price") as [tp|]; [|discriminate]. simpl in Hinfo.
  injection Hinfo as <-. destruct st; try discriminate. injection Hb as <-.
  exists sv, sid. split; [done|]. split; [done|].
  unfold appointment_info_dict.
  destruct (List.find _ (services db)) as [s|]; simpl;
    (split; [|done]);
    repeat (first [rewrite lookup_insert_eq | rewrite lookup_insert_ne by done]); done.
Qed.

Lemma listed_and_occupied_duration_witness :
  ∃ sv sid,
    ana_record !! "service_id" = Some sv ∧
    ObjectId_of_value sv = Ok sid ∧
    match List.find (λ s, String.eqb (service_oid s) sid)
            (services {| services := [corte]; barbers := [the_barber];
                         appointments := [ana_record] |}) with
    | Some s =>
        appointment_info_dict (VObjectId id1) (VDate (combine monday (hm 10 0)))
          (VStr STATUS_PENDING) (VFloat (Float 35 0)) VNull
          (users_find_one the_users ana) (users_find_one the_users "65f000000000000000000c01")
          None !! "duration_minutes" = Some (VInt (duration_minutes s)) ∧
        busy_end {| busy_start := combine monday (hm 10 0);
                    busy_end := combine monday (hm 10 0) + timedelta 60 |}
        = busy_start {| busy_start := combine monday (hm 10 0);
                        busy_end := combine monday (hm 10 0) + timedelta 60 |}
          + timedelta (duration_minutes s)
    | None =>
        appointment_info_dict (VObjectId id1) (VDate (combine monday (hm 10 0)))
          (VStr STATUS_PENDING) (VFloat (Float 35 0)) VNull
          (users_find_one the_users ana) (users_find_one the_users "65f000000000000000000c01")
          None !! "duration_minutes" = Some (VInt 0) ∧
        busy_end {| busy_start := combine monday (hm 10 0);
                    busy_end := combine monday (hm 10 0) + timedelta 60 |}
        = busy_start {| busy_start := combine monday (hm 10 0);
                        busy_end := combine monday (hm 10 0) + timedelta 60 |}
          + timedelta 60
    end.
Proof.
  apply (listed_and_occupied_duration the_users
           {| services := [corte]; barbers := [the_barber]; appointments := [ana_record] |}
           ana_record).
  - reflexivity.
  - reflexivity.
Defined.

(** ** Identifiers *)

Lemma hex_lower_idem c c' : hex_lower c = Some c' → hex_lower c' = Some c'.
Proof.
  unfold hex_lower.
  destruct ((48 <=? nat_of_ascii c) && (nat_of_ascii c <=? 57))%nat eqn:H1.
  { intros [= <-]. by rewrite H1. }
  destruct ((97 <=? nat_of_ascii c) && (nat_of_ascii c <=? 102))%nat eqn:H2.
  { intros [= <-]. by rewrite H1, H2. }
  destruct ((65 <=? nat_of_ascii c) && (nat_of_ascii c <=? 70))%nat eqn:H3; [|discriminate].
  intros [= <-]. apply andb_true_iff in H3 as [Ha Hb].
  apply Nat.leb_le in Ha, Hb.
  rewrite nat_ascii_embedding by lia.
  replace ((48 <=? nat_of_ascii c + 32) && (nat_of_ascii c + 32 <=? 57))%nat with false.
  2:{ symmetry. apply andb_false_iff. right. apply Nat.leb_gt. lia. }
  replace ((97 <=? nat_of_ascii c + 32) && (nat_of_ascii c + 32 <=? 102))%nat with true.
  2:{ symmetry. apply andb_true_iff. split; apply Nat.leb_le; lia. }
  done.
Qed.

Lemma hex_string_lower_idem s r :
  hex_string_lower s = Some r →
  hex_string_lower r = Some r ∧ String.length r = String.length s.
Proof.
  revert r. induction s as [|c s IH]; simpl; intros r.
  - intros [= <-]. done.
  - destruct (hex_lower c) as [c'|] eqn:Hc; [|discriminate].
    destruct (hex_string_lower s) as [r'|]; [|discriminate].
    intros [= <-]. destruct (IH r' eq_refl) as [Hr Hlen]. simpl.
    rewrite (hex_lower_idem _ _ Hc), Hr, Hlen. done.
Qed.

(** X27.  [PyObjectId.validate] turns a string of 24 hexadecimal digits
    into the id whose text is the string in lower case, and that id is
    canonical: validated again, as a string or as an ObjectId, it gives
    itself.  Whatever is neither a string nor an ObjectId, and every string
    that is not 24 characters long, is refused with [ValueError], and
    nothing else is ever raised. *)
Theorem PyObjectId_validate_canonical :
  (∀ s oid,
     String.length s = 24%nat →
     hex_string_lower s = Some oid →
     PyObjectId_validate (VStr s) = Ok oid ∧
     PyObjectId_validate (VStr oid) = Ok oid ∧
     PyObjectId_validate (VObjectId oid) = Ok oid ∧
     String.length oid = 24%nat) ∧
  (∀ v, (∀ s, v ≠ VStr s) → (∀ oid, v ≠ VObjectId oid) →
        PyObjectId_validate v = Raise ValueError) ∧
  (∀ s, String.length s ≠ 24%nat → PyObjectId_validate (VStr s) = Raise ValueError) ∧
  (∀ v e, PyObjectId_validate v = Raise e → e = ValueError).
Proof.
  split; [|split; [|split]].
  - intros s oid Hlen Hr. destruct (hex_string_lower_idem _ _ Hr) as [Hidem Hl].
    assert (Hs : ObjectId s = Ok oid) by (unfold ObjectId; by rewrite Hlen, Hr).
    assert (Ho : ObjectId oid = Ok oid) by (unfold ObjectId; by rewrite Hl, Hlen, Hidem).
    simpl. rewrite Hs, Ho. repeat split. by rewrite Hl.
  - intros v Hs Ho. destruct v; try done.
    + by destruct (Hs s).
    + by destruct (Ho oid).
  - intros s Hlen. simpl. unfold ObjectId.
    by rewrite (proj2 (Nat.eqb_neq _ _) Hlen).
  - intros v e. destruct v; simpl; try congruence.
    destruct (ObjectId s); congruence.
Qed.

Lemma PyObjectId_validate_canonical_witness :
  PyObjectId_validate (VStr "65F000000000000000000B01") = Ok the_barber_id ∧
  PyObjectId_validate (VStr the_barber_id) = Ok the_barber_id ∧
  PyObjectId_validate (VObjectId the_barber_id) = Ok the_barber_id ∧
  String.length the_barber_id = 24%nat.
Proof.
  apply (proj1 PyObjectId_validate_canonical "65F000000000000000000B01" the_barber_id);
    reflexivity.
Defined.
